(** * Verification-code and credential lifecycle of the authentication service

    A shallow embedding of [authentication/views.py],
    [authentication/serializers.py], [core/exceptions.py] and the parts of
    [config/settings.py] they read.  The database is an explicit state that
    every view threads; exceptions are values; the clock, the random code, the
    minted tokens and the outcome of the mail transport are inputs of the
    request that needs them.  Texts are ASCII: [lower], [strip] and the
    lengths are those of Python on ASCII text. *)

From Stdlib Require Import ZArith String Ascii List Bool Lia.
From stdpp Require Import base strings gmap list pretty.
Import ListNotations.

Local Open Scope string_scope.
Local Open Scope Z_scope.

(** ** Python values *)

(** A [dict] with string keys, in insertion order. *)
Definition dict (V : Type) : Type := list (string * V).

Fixpoint dict_get {V : Type} (k : string) (d : dict V) : option V :=
  match d with
  | [] => None
  | (k', v) :: rest => if String.eqb k k' then Some v else dict_get k rest
  end.

(** [str.lower()] on ASCII text. *)
Definition ascii_lower (c : ascii) : ascii :=
  let n := nat_of_ascii c in
  if ((65 <=? n) && (n <=? 90))%nat then ascii_of_nat (n + 32) else c.

Fixpoint lower (s : string) : string :=
  match s with
  | EmptyString => EmptyString
  | String c rest => String (ascii_lower c) (lower rest)
  end.

(** [str.isspace()] on an ASCII character: the characters 9 to 13 and 28 to
    32. *)
Definition is_space (c : ascii) : bool :=
  let n := nat_of_ascii c in
  (((9 <=? n) && (n <=? 13)) || ((28 <=? n) && (n <=? 32)))%nat.

Fixpoint lstrip (s : string) : string :=
  match s with
  | EmptyString => EmptyString
  | String c rest => if is_space c then lstrip rest else s
  end.

Fixpoint rstrip (s : string) : string :=
  match s with
  | EmptyString => EmptyString
  | String c rest =>
      match rstrip rest with
      | EmptyString => if is_space c then EmptyString else String c EmptyString
      | kept => String c kept
      end
  end.

(** [str.strip()] *)
Definition strip (s : string) : string := rstrip (lstrip s).

(** ['\x00' in s] *)
Definition has_nul (s : string) : bool :=
  existsb (Ascii.eqb zero) (list_ascii_of_string s).

(** [" ".join(str(i) for i in l)] *)
Definition join_space (l : list string) : string := String.concat " " l.

Definition is_digit (c : ascii) : bool :=
  let n := nat_of_ascii c in ((48 <=? n) && (n <=? 57))%nat.

(** [str.isdigit()] on ASCII text: non-empty and digits only. *)
Definition isdigit (s : string) : bool :=
  match s with
  | EmptyString => false
  | _ => forallb is_digit (list_ascii_of_string s)
  end.

(** JSON bodies of the responses. *)
#[local] Unset Elimination Schemes.
Inductive Json : Type :=
| JStr (s : string)
| JBool (b : bool)
| JInt (n : Z)
| JObj (o : list (string * Json)).
#[local] Set Elimination Schemes.

(** ** Exceptions and responses (rest_framework) *)

(** The [detail] of a DRF exception: a message, a list of messages, or a
    dict of messages and lists of messages. *)
Inductive ErrorValue : Type :=
| EStr (s : string)
| EList (l : list string).

Inductive ErrorData : Type :=
| EDict (d : dict ErrorValue)
| EArr (l : list string)
| EText (s : string).

(** An exception carries its class name; the subclasses of DRF's
    [APIException] also carry a status code and a detail, any other
    exception the message it was raised with, if it was raised with one. *)
Inductive Exception : Type :=
| APIException (cls : string) (status_code : Z) (detail : ErrorData)
| PyException (cls : string) (message : option string).

Definition HTTP_200_OK : Z := 200.
Definition HTTP_201_CREATED : Z := 201.
Definition HTTP_400_BAD_REQUEST : Z := 400.
Definition HTTP_401_UNAUTHORIZED : Z := 401.
Definition HTTP_403_FORBIDDEN : Z := 403.
Definition HTTP_404_NOT_FOUND : Z := 404.
Definition HTTP_500_INTERNAL_SERVER_ERROR : Z := 500.

(** [rest_framework.exceptions.ValidationError(detail)] *)
Definition ValidationError (detail : ErrorData) : Exception :=
  APIException "ValidationError" HTTP_400_BAD_REQUEST detail.

Record Response (D : Type) : Type := mkResponse { data : D; status : Z }.
Arguments mkResponse {D} _ _.
Arguments data {D} _.
Arguments status {D} _.

(** [rest_framework.views.exception_handler] first turns Django's [Http404]
    and [PermissionDenied] into the API exceptions [NotFound] and
    [PermissionDenied], built from the arguments of the exception: the detail
    is the message of the exception when it has one, and the default detail
    of the API exception otherwise. *)
Definition as_api_exception (exc : Exception) : Exception :=
  match exc with
  | PyException cls message =>
      if String.eqb cls "Http404"
      then APIException "NotFound" HTTP_404_NOT_FOUND
             (EText (default "Not found." message))
      else if String.eqb cls "PermissionDenied"
      then APIException "PermissionDenied" HTTP_403_FORBIDDEN
             (EText (default "You do not have permission to perform this action." message))
      else exc
  | APIException _ _ _ => exc
  end.

(** Then an [APIException] becomes a response with the exception's status; a
    detail that is a list or a dict is the body as it is, any other detail is
    wrapped under ["detail"].  Other exceptions are not handled ([None]). *)
Definition exception_handler (exc : Exception) : option (Response ErrorData) :=
  match as_api_exception exc with
  | APIException _ sc (EText s) => Some (mkResponse (EDict [("detail", EStr s)]) sc)
  | APIException _ sc d => Some (mkResponse d sc)
  | PyException _ _ => None
  end.

Definition class_name (exc : Exception) : string :=
  match exc with
  | APIException cls _ _ => cls
  | PyException cls _ => cls
  end.

Definition str_exc (exc : Exception) : string :=
  match exc with
  | APIException _ _ (EText s) => s
  | APIException cls _ _ => cls
  | PyException _ message => default "" message
  end.

(** ** core/exceptions.py *)

Definition EXCEPTION_CODE_MAP : dict string :=
  [ ("ValidationError", "validation_error");
    ("NotAuthenticated", "not_authenticated");
    ("AuthenticationFailed", "invalid_credentials");
    ("PermissionDenied", "permission_denied");
    ("NotFound", "not_found");
    ("MethodNotAllowed", "method_not_allowed") ].

Definition message_of_value (v : ErrorValue) : string :=
  match v with
  | EList l => join_space l
  | EStr s => s
  end.

(** [custom_exception_handler(exc, context)].  The result is [None] where the
    handler itself raises ([next] on the values of an empty dict). *)
Definition custom_exception_handler (exc : Exception) : option (Response Json) :=
  match exception_handler exc with
  | Some response =>
      let code :=
        match dict_get (class_name exc) EXCEPTION_CODE_MAP with
        | Some c => c
        | None => class_name exc
        end in
      let message : option string :=
        match data response with
        | EDict d =>
            match dict_get "detail" d with
            | Some v => Some (message_of_value v)
            | None =>
                match d with
                | (_, first_error) :: _ => Some (message_of_value first_error)
                | [] => None
                end
            end
        | EArr l => Some (join_space l)
        | EText s => Some s
        end in
      match message with
      | Some m =>
          Some (mkResponse (JObj [("code", JStr code); ("message", JStr m)])
                           (status response))
      | None => None
      end
  | None =>
      Some (mkResponse (JObj [("code", JStr "server_error");
                              ("message", JStr (str_exc exc))])
                       HTTP_500_INTERNAL_SERVER_ERROR)
  end.

(** ** The models (authentication/models.py)

    The rows of the two tables.  A row's primary key is its position in the
    table: rows are appended by [create] and never deleted by the views. *)

Module VerificationCode.
Record t : Type := mk
  { email : string;
    code : string;
    created_at : Z;
    expires_at : Z;
    is_used : bool }.

Definition set_is_used (b : bool) (v : t) : t :=
  {| email := email v; code := code v; created_at := created_at v;
     expires_at := expires_at v; is_used := b |}.

(** Modelled from the spec: [VerificationCode.is_valid], whose body is in
    models.py: a code is valid iff it is unused and the clock is before its
    expiry timestamp. *)
Definition is_valid (now : Z) (v : t) : bool :=
  negb (is_used v) && (now <? expires_at v).
End VerificationCode.

Module User.
Record t : Type := mk
  { id : Z;
    email : string;
    password : string;
    first_name : string;
    last_name : string;
    is_verified : bool;
    is_active : bool;
    date_joined : Z }.
End User.

(** The persistent store: the two tables and the token blacklist of
    [rest_framework_simplejwt.token_blacklist] (the [jti] of every
    blacklisted refresh token).  The table of outstanding tokens of that
    application, which no view reads, is not part of it. *)
Record Db : Type := mkDb
  { codes : list VerificationCode.t;
    users : list User.t;
    blacklist : gset string }.

Definition empty_db : Db := mkDb [] [] ∅.

Definition with_codes (cs : list VerificationCode.t) (db : Db) : Db :=
  mkDb cs (users db) (blacklist db).
Definition with_users (us : list User.t) (db : Db) : Db :=
  mkDb (codes db) us (blacklist db).
Definition with_blacklist (bl : gset string) (db : Db) : Db :=
  mkDb (codes db) (users db) bl.

(** ** Views as state transformers

    A view runs on the store and ends in a value or in an exception; the
    store it leaves is returned in both cases (the settings turn on no
    per-request transaction, so every ORM statement is committed when it is
    executed). *)
Definition View (A : Type) : Type := Db -> Db * (Exception + A).

Definition ret {A : Type} (a : A) : View A := fun db => (db, inr a).
Definition raise {A : Type} (e : Exception) : View A := fun db => (db, inl e).
Definition bind {A B : Type} (m : View A) (k : A -> View B) : View B :=
  fun db =>
    match m db with
    | (db', inr a) => k a db'
    | (db', inl e) => (db', inl e)
    end.
Definition query {A : Type} (f : Db -> A) : View A := fun db => (db, inr (f db)).
Definition execute (f : Db -> Db) : View unit := fun db => (f db, inr tt).

Notation "'let*' x ':=' m 'in' k" := (bind m (fun x => k))
  (at level 10, x name, m at level 100, k at level 200).
Notation "'run*' m 'in' k" := (bind m (fun _ => k))
  (at level 10, m at level 100, k at level 200).

(** ** ORM queries *)

(** [VerificationCode.objects.filter(email=, is_used=False).update(is_used=True)] *)
Definition invalidate_unused (email : string) (cs : list VerificationCode.t)
  : list VerificationCode.t :=
  map (fun v => if String.eqb (VerificationCode.email v) email
                   && negb (VerificationCode.is_used v)
                then VerificationCode.set_is_used true v else v) cs.

(** [VerificationCode.objects.create(...)] *)
Definition create_code (v : VerificationCode.t) (cs : list VerificationCode.t)
  : list VerificationCode.t := cs ++ [v].

(** The filter of verify-code: [email=email, code=code, is_used=False]. *)
Definition matches (email code : string) (v : VerificationCode.t) : bool :=
  String.eqb (VerificationCode.email v) email
  && String.eqb (VerificationCode.code v) code
  && negb (VerificationCode.is_used v).

(** [queryset.latest("created_at")]: the primary key and the row of greatest
    [created_at] among the rows that pass [p]; among rows created at the same
    instant the one inserted last.  [None] is [DoesNotExist]. *)
Fixpoint latest_from (pk : nat) (p : VerificationCode.t -> bool)
                     (cs : list VerificationCode.t)
                     (best : option (nat * VerificationCode.t))
  : option (nat * VerificationCode.t) :=
  match cs with
  | [] => best
  | v :: rest =>
      let best' :=
        if p v then
          match best with
          | Some (_, b) =>
              if VerificationCode.created_at b <=? VerificationCode.created_at v
              then Some (pk, v) else best
          | None => Some (pk, v)
          end
        else best in
      latest_from (S pk) p rest best'
  end.

Definition latest (p : VerificationCode.t -> bool) (cs : list VerificationCode.t)
  : option (nat * VerificationCode.t) := latest_from 0 p cs None.

(** [verification.save()]: write the row back under its primary key. *)
Definition save_code (pk : nat) (v : VerificationCode.t)
                     (cs : list VerificationCode.t) : list VerificationCode.t :=
  <[pk := v]> cs.

(** [VerificationCode.objects.filter(email=email, is_used=True)
      .order_by("-created_at").first()] is [None] exactly when no row passes
    the filter. *)
Definition used_for (email : string) (v : VerificationCode.t) : bool :=
  String.eqb (VerificationCode.email v) email && VerificationCode.is_used v.

Definition first_used (email : string) (cs : list VerificationCode.t)
  : option VerificationCode.t :=
  match latest (used_for email) cs with
  | Some (_, v) => Some v
  | None => None
  end.

(** [User.objects.filter(email=email).exists()] *)
Definition user_exists (email : string) (us : list User.t) : bool :=
  existsb (fun u => String.eqb (User.email u) email) us.

(** ** What the views take from outside the repository

    [Django] bundles the library functions whose bodies are data or
    cryptography: the e-mail address validator of [EmailField], the list of
    [CommonPasswordValidator], the password hasher, [authenticate] of
    [django.contrib.auth], and the decoding of a signed token into its
    claims.  [authenticate] is a lookup in the user table: it writes nothing.
    [Env] is what one request draws from its environment. *)

Record Payload : Type := mkPayload
  { jti : string;
    exp : Z;
    token_type : string;
    user_id : Z }.

Record Django : Type := mkDjango
  { EmailValidator : string -> bool;
    is_common_password : string -> bool;
    make_password : string -> string;
    authenticate : list User.t -> string -> string -> option User.t;
    decode : string -> option Payload }.

Record Env : Type := mkEnv
  { now : Z;
    generate_code : string;
    send_mail_raises : bool;
    minted_refresh : string;
    minted_access : string }.

(** ** config/settings.py *)

Definition VERIFICATION_CODE_EXPIRY_MINUTES : Z := 10.
Definition MinimumLengthValidator_min_length : nat := 8.
Definition ROTATE_REFRESH_TOKENS : bool := true.
Definition BLACKLIST_AFTER_ROTATION : bool := true.

(** [timedelta(minutes=m)], in seconds. *)
Definition minutes (m : Z) : Z := 60 * m.

(** ** Serializer fields (rest_framework.fields)

    A request body is the parsed JSON object of the request with every value
    as its text: a JSON string as it is, a JSON number by its decimal text
    (the fields apply [str] to both).  The values that the fields refuse for
    their type (null, booleans, arrays, objects) are outside the model.  A
    field reads its key and answers with the validated value, with its error
    messages, or with nothing when the key is absent and the field is
    optional. *)

Inductive FieldResult : Type :=
| Skip
| Invalid (errors : list string)
| Valid (value : string).

Definition run_validators (validators : list (string -> list string)) (value : string)
  : FieldResult :=
  match concat (map (fun validate => validate value) validators) with
  | [] => Valid value
  | errors => Invalid errors
  end.

Definition MaxLengthValidator (n : nat) (value : string) : list string :=
  if (n <? String.length value)%nat
  then ["Ensure this field has no more than " ++ pretty n ++ " characters."]
  else [].

Definition MinLengthValidator (n : nat) (value : string) : list string :=
  if (String.length value <? n)%nat
  then ["Ensure this field has at least " ++ pretty n ++ " characters."]
  else [].

Definition length_validators (min_length max_length : option nat)
  : list (string -> list string) :=
  match max_length with Some n => [MaxLengthValidator n] | None => [] end
  ++ match min_length with Some n => [MinLengthValidator n] | None => [] end.

Definition ProhibitNullCharactersValidator (value : string) : list string :=
  if has_nul value then ["Null characters are not allowed."] else [].

(** [CharField.run_validation] with the default [trim_whitespace=True]: a
    text that is blank once stripped is refused, or is the empty text where
    blank is allowed; any other text is stripped and then goes through the
    validators of the field. *)
Definition text_field (required allow_blank : bool)
                      (validators : list (string -> list string))
                      (raw : option string) : FieldResult :=
  match raw with
  | None => if required then Invalid ["This field is required."] else Skip
  | Some data =>
      if String.eqb (strip data) ""
      then if allow_blank then Valid "" else Invalid ["This field may not be blank."]
      else run_validators validators (strip data)
  end.

(** [serializers.CharField(required=, allow_blank=, min_length=, max_length=,
    validators=)] applied to the value under its key: the validators given to
    the field, then the length validators and the refusal of NUL characters
    that the class appends. *)
Definition CharField (required allow_blank : bool) (min_length max_length : option nat)
                     (validators : list (string -> list string))
                     (raw : option string) : FieldResult :=
  text_field required allow_blank
    (validators ++ length_validators min_length max_length
     ++ [ProhibitNullCharactersValidator])
    raw.

(** [serializers.EmailField()]: a required, non-blank [CharField] to which
    the class appends the e-mail validator. *)
Definition EmailField (dj : Django) (raw : option string) : FieldResult :=
  text_field true false
    [ ProhibitNullCharactersValidator;
      fun value => if EmailValidator dj value then [] else ["Enter a valid email address."] ]
    raw.

(** A [validate_<field>] method runs on the value of a field that passed. *)
Definition then_validate (method : string -> FieldResult) (r : FieldResult) : FieldResult :=
  match r with
  | Valid value => method value
  | other => other
  end.

Definition errors_of (name : string) (r : FieldResult) : dict ErrorValue :=
  match r with
  | Invalid errors => [(name, EList errors)]
  | _ => []
  end.

Definition value_of (r : FieldResult) : option string :=
  match r with
  | Valid value => Some value
  | _ => None
  end.

(** [django.contrib.auth.password_validation.validate_password(password)]
    with [AUTH_PASSWORD_VALIDATORS] of the settings; called without a user,
    [UserAttributeSimilarityValidator] has nothing to compare with. *)
Definition validate_password (dj : Django) (password : string) : list string :=
  (if (String.length password <? MinimumLengthValidator_min_length)%nat
   then ["This password is too short. It must contain at least "
         ++ pretty MinimumLengthValidator_min_length ++ " characters."]
   else [])
  ++ (if is_common_password dj password then ["This password is too common."] else [])
  ++ (if isdigit password then ["This password is entirely numeric."] else []).

(** [as_serializer_error]: the detail of an error raised by [validate], as
    the serializer reports it: every message of a dict in a list. *)
Definition as_serializer_error (detail : ErrorData) : ErrorData :=
  match detail with
  | EDict d =>
      EDict (map (fun kv => match kv with
                            | (k, EStr s) => (k, EList [s])
                            | other => other
                            end) d)
  | EArr l => EDict [("non_field_errors", EList l)]
  | EText s => EDict [("non_field_errors", EList [s])]
  end.

Definition try_except {A : Type} (body : View A) (catches : Exception -> bool)
                      (handler : View A) : View A :=
  fun db =>
    match body db with
    | (db', inl e) => if catches e then handler db' else (db', inl e)
    | done => done
    end.

(** ** authentication/serializers.py *)

Module CheckEmailSerializer.
Definition validate_email (value : string) : FieldResult := Valid (lower value).

Definition is_valid (dj : Django) (data : dict string) : View string :=
  let email := then_validate validate_email (EmailField dj (dict_get "email" data)) in
  match value_of email with
  | Some e => ret e
  | None => raise (ValidationError (EDict (errors_of "email" email)))
  end.
End CheckEmailSerializer.

Module LoginSerializer.
Record validated_data : Type := mk
  { email : string;
    password : string;
    user : User.t }.

Definition validate (dj : Django) (email password : string) (db : Db)
  : ErrorData + validated_data :=
  let email' := lower email in
  if String.eqb email' "" || String.eqb password ""
  then inl (EDict [("detail", EStr "Email and password are required.")])
  else
    match authenticate dj (users db) email' password with
    | None => inl (EDict [("detail", EStr "Invalid email or password.")])
    | Some user =>
        if negb (User.is_active user)
        then inl (EDict [("detail", EStr "User account is disabled.")])
        else if negb (User.is_verified user)
        then inl (EDict [("detail", EStr "Email is not verified.")])
        else inr (mk email password user)
    end.

Definition is_valid (dj : Django) (data : dict string) : View validated_data :=
  let email := EmailField dj (dict_get "email" data) in
  let password := CharField true false None None [] (dict_get "password" data) in
  match value_of email, value_of password with
  | Some e, Some p =>
      let* checked := query (validate dj e p) in
      match checked with
      | inr attrs => ret attrs
      | inl detail => raise (ValidationError (as_serializer_error detail))
      end
  | _, _ =>
      raise (ValidationError
               (EDict (errors_of "email" email ++ errors_of "password" password)%list))
  end.
End LoginSerializer.

Module SendVerificationCodeSerializer.
Definition validate_email (db : Db) (value : string) : FieldResult :=
  let email := lower value in
  if user_exists email (users db)
  then Invalid ["User with this email already exists."]
  else Valid email.

Definition is_valid (dj : Django) (data : dict string) : View string :=
  let* db := query (fun db => db) in
  let email := then_validate (validate_email db) (EmailField dj (dict_get "email" data)) in
  match value_of email with
  | Some e => ret e
  | None => raise (ValidationError (EDict (errors_of "email" email)))
  end.
End SendVerificationCodeSerializer.

Module VerifyCodeSerializer.
Record validated_data : Type := mk
  { email : string;
    code : string }.

Definition validate_email (value : string) : FieldResult := Valid (lower value).

Definition code_field : option string -> FieldResult :=
  CharField true false (Some 5%nat) (Some 5%nat) [].

Definition is_valid (dj : Django) (data : dict string) : View validated_data :=
  let email := then_validate validate_email (EmailField dj (dict_get "email" data)) in
  let code := code_field (dict_get "code" data) in
  match value_of email, value_of code with
  | Some e, Some c => ret (mk e c)
  | _, _ =>
      raise (ValidationError (EDict (errors_of "email" email ++ errors_of "code" code)%list))
  end.
End VerifyCodeSerializer.

Module RegisterSerializer.
Record validated_data : Type := mk
  { email : string;
    password : string;
    password_confirm : string;
    first_name : option string;
    last_name : option string }.

Definition validate_email (value : string) : FieldResult := Valid (lower value).

Definition validate (attrs : validated_data) : ErrorData + validated_data :=
  if negb (String.eqb (password attrs) (password_confirm attrs))
  then inl (EDict [("password_confirm", EStr "Passwords do not match.")])
  else inr attrs.

Definition is_valid (dj : Django) (data : dict string) : View validated_data :=
  let email := then_validate validate_email (EmailField dj (dict_get "email" data)) in
  let password :=
    CharField true false None None [validate_password dj] (dict_get "password" data) in
  let password_confirm :=
    CharField true false None None [] (dict_get "password_confirm" data) in
  let first_name :=
    CharField false true None (Some 150%nat) [] (dict_get "first_name" data) in
  let last_name :=
    CharField false true None (Some 150%nat) [] (dict_get "last_name" data) in
  let errors :=
    (errors_of "email" email ++ errors_of "password" password
     ++ errors_of "password_confirm" password_confirm
     ++ errors_of "first_name" first_name ++ errors_of "last_name" last_name)%list in
  match errors, value_of email, value_of password, value_of password_confirm with
  | [], Some e, Some p, Some pc =>
      match validate (mk e p pc (value_of first_name) (value_of last_name)) with
      | inr attrs => ret attrs
      | inl detail => raise (ValidationError (as_serializer_error detail))
      end
  | _, _, _, _ => raise (ValidationError (EDict errors))
  end.

(** [create]: [User.objects.create_user(..., is_verified=True)].
    Modelled from the spec: the manager's [create_user], whose body is in
    models.py, stores a new active user under the next primary key with the
    hashed password. *)
Definition create (dj : Django) (joined : Z) (attrs : validated_data) : View User.t :=
  let* pk := query (fun db => Z.of_nat (length (users db)) + 1) in
  let user :=
    User.mk pk (email attrs) (make_password dj (password attrs))
            (default "" (first_name attrs)) (default "" (last_name attrs))
            true true joined in
  run* execute (fun db => with_users (users db ++ [user]) db) in
  ret user.
End RegisterSerializer.

Module LogoutSerializer.
Definition is_valid (data : dict string) : View string :=
  let refresh := CharField true false None None [] (dict_get "refresh" data) in
  match value_of refresh with
  | Some r => ret r
  | None => raise (ValidationError (EDict (errors_of "refresh" refresh)))
  end.
End LogoutSerializer.

Module UserSerializer.
Definition data (user : User.t) : Json :=
  JObj [ ("id", JInt (User.id user));
         ("email", JStr (User.email user));
         ("first_name", JStr (User.first_name user));
         ("last_name", JStr (User.last_name user));
         ("is_verified", JBool (User.is_verified user));
         ("date_joined", JInt (User.date_joined user)) ].
End UserSerializer.

(** ** rest_framework_simplejwt *)

Module RefreshToken.
Definition TokenError (text : string) : Exception := PyException "TokenError" (Some text).

(** Modelled from the spec: the constructor [RefreshToken(token)] validates
    the token (signature, expiry, kind) and refuses a token whose [jti] is in
    the blacklist; its body is the library's. *)
Definition verify (dj : Django) (clock : Z) (token : string) : View Payload :=
  match decode dj token with
  | None => raise (TokenError "Token is invalid or expired")
  | Some payload =>
      if exp payload <=? clock then raise (TokenError "Token is invalid or expired")
      else if negb (String.eqb (token_type payload) "refresh")
      then raise (TokenError "Token has wrong type")
      else
        let* listed := query (fun db => bool_decide (jti payload ∈ blacklist db)) in
        if listed then raise (TokenError "Token is blacklisted") else ret payload
  end.

(** Modelled from the spec: [token.blacklist()] adds the token to the
    blacklist, for the rest of its lifetime. *)
Definition blacklist_token (payload : Payload) : View unit :=
  execute (fun db => with_blacklist ({[ jti payload ]} ∪ blacklist db) db).
End RefreshToken.

Module TokenRefreshView.
Definition InvalidToken (text : string) : Exception :=
  APIException "InvalidToken" HTTP_401_UNAUTHORIZED (EDict [("detail", EStr text)]).

Definition is_TokenError (e : Exception) : bool := String.eqb (class_name e) "TokenError".

(** The serializer of the view declares the one field [refresh], as the
    serializer of logout does. *)
Definition is_valid : dict string -> View string := LogoutSerializer.is_valid.

(** Modelled from the spec: RefreshPair, the view of the library that
    [authentication/urls.py] routes at [token/refresh/]: validate signature,
    expiry and not-blacklisted, then (with the two rotation flags of
    [SIMPLE_JWT]) blacklist the presented token and issue a new pair; a token
    that does not validate fails with InvalidToken. *)
Definition post (dj : Django) (request : dict string) (env : Env) : View (Response Json) :=
  let* refresh := is_valid request in
  let* payload :=
    try_except (RefreshToken.verify dj (now env) refresh) is_TokenError
               (raise (InvalidToken "Token is invalid or expired")) in
  let access := [("access", JStr (minted_access env))] in
  if ROTATE_REFRESH_TOKENS then
    run* (if BLACKLIST_AFTER_ROTATION then RefreshToken.blacklist_token payload else ret tt) in
    ret (mkResponse (JObj (access ++ [("refresh", JStr (minted_refresh env))])) HTTP_200_OK)
  else ret (mkResponse (JObj access) HTTP_200_OK).
End TokenRefreshView.

(** ** authentication/views.py *)

(** [get_tokens_for_user]: the pair that [RefreshToken.for_user] mints in this
    request.  The library also records the refresh token it issues in its
    table of outstanding tokens, which is not one of the tables of [Db]. *)
Definition get_tokens_for_user (env : Env) (user : User.t) : dict string :=
  [ ("refresh", minted_refresh env); ("access", minted_access env) ].

Definition detail_error (text : string) : Exception :=
  ValidationError (EDict [("detail", EStr text)]).

Module CheckEmailView.
Definition post (dj : Django) (request : dict string) : View (Response Json) :=
  let* validated := CheckEmailSerializer.is_valid dj request in
  let email := lower validated in
  let* user_exists := query (fun db => user_exists email (users db)) in
  ret (mkResponse
         (JObj [ ("exists", JBool user_exists);
                 ("message", JStr (if user_exists
                                   then "User exists. Please enter your password."
                                   else "New user. Verification code will be sent.")) ])
         HTTP_200_OK).
End CheckEmailView.

Module LoginView.
Definition post (dj : Django) (request : dict string) (env : Env) : View (Response Json) :=
  let* validated := LoginSerializer.is_valid dj request in
  let user := LoginSerializer.user validated in
  let tokens := get_tokens_for_user env user in
  ret (mkResponse
         (JObj [ ("access", JStr (default "" (dict_get "access" tokens)));
                 ("refresh", JStr (default "" (dict_get "refresh" tokens)));
                 ("user", UserSerializer.data user);
                 ("message", JStr "Login successful.") ])
         HTTP_200_OK).
End LoginView.

Module SendVerificationCodeView.
(** [send_mail(..., fail_silently=False)]; whether the transport raises is
    given by the environment.  The code is the draw of
    [VerificationCode.generate_code()] in this request, and the row is
    stamped with the clock of the request when it is created. *)
Definition send_mail (env : Env) : View unit :=
  if send_mail_raises env then raise (PyException "SMTPException" None) else ret tt.

Definition post (dj : Django) (request : dict string) (env : Env) : View (Response Json) :=
  let* email := SendVerificationCodeSerializer.is_valid dj request in
  run* execute (fun db => with_codes (invalidate_unused email (codes db)) db) in
  let code := generate_code env in
  let expires_at := now env + minutes VERIFICATION_CODE_EXPIRY_MINUTES in
  run* execute (fun db =>
         with_codes (create_code (VerificationCode.mk email code (now env) expires_at false)
                                 (codes db)) db) in
  run* try_except (send_mail env) (fun _ => true)
         (raise (detail_error "Failed to send email. Please try again.")) in
  ret (mkResponse
         (JObj [ ("message", JStr "Verification code sent to email.");
                 ("expires_in_minutes", JInt VERIFICATION_CODE_EXPIRY_MINUTES) ])
         HTTP_200_OK).
End SendVerificationCodeView.

Module VerifyCodeView.
Definition DoesNotExist : Exception :=
  PyException "DoesNotExist" (Some "VerificationCode matching query does not exist.").

Definition is_DoesNotExist (e : Exception) : bool :=
  String.eqb (class_name e) "DoesNotExist".

Definition post (dj : Django) (request : dict string) (env : Env) : View (Response Json) :=
  let* validated := VerifyCodeSerializer.is_valid dj request in
  let email := VerifyCodeSerializer.email validated in
  let code := VerifyCodeSerializer.code validated in
  try_except
    (let* found := query (fun db => latest (matches email code) (codes db)) in
     match found with
     | None => raise DoesNotExist
     | Some (pk, verification) =>
         if negb (VerificationCode.is_valid (now env) verification)
         then raise (detail_error "Verification code has expired. Please request a new one.")
         else
           let verification := VerificationCode.set_is_used true verification in
           run* execute (fun db => with_codes (save_code pk verification (codes db)) db) in
           ret (mkResponse
                  (JObj [ ("verified", JBool true);
                          ("message",
                           JStr "Code verified successfully. Please set your password.") ])
                  HTTP_200_OK)
     end)
    is_DoesNotExist
    (raise (detail_error "Invalid verification code.")).
End VerifyCodeView.

Module RegisterView.
Definition post (dj : Django) (request : dict string) (env : Env) : View (Response Json) :=
  let* validated := RegisterSerializer.is_valid dj request in
  let email := RegisterSerializer.email validated in
  let* verified_code := query (fun db => first_used email (codes db)) in
  match verified_code with
  | None => raise (detail_error "Email not verified. Please verify your email first.")
  | Some _ =>
      let* taken := query (fun db => user_exists email (users db)) in
      if taken then raise (detail_error "User with this email already exists.")
      else
        let* user := RegisterSerializer.create dj (now env) validated in
        let tokens := get_tokens_for_user env user in
        ret (mkResponse
               (JObj [ ("access", JStr (default "" (dict_get "access" tokens)));
                       ("refresh", JStr (default "" (dict_get "refresh" tokens)));
                       ("user", UserSerializer.data user);
                       ("message", JStr "Registration successful.") ])
               HTTP_201_CREATED)
  end.
End RegisterView.

Module MeView.
(** [get]; [request.user] is the user that the framework has authenticated. *)
Definition get (user : User.t) : View (Response Json) :=
  ret (mkResponse (UserSerializer.data user) HTTP_200_OK).
End MeView.

Module LogoutView.
(** The body of [post]; the view is reached by authenticated requests. *)
Definition post (dj : Django) (request : dict string) (env : Env) : View (Response Json) :=
  let* refresh_token := LogoutSerializer.is_valid request in
  if String.eqb refresh_token "" then raise (detail_error "Refresh token is required.")
  else
    try_except
      (let* token := RefreshToken.verify dj (now env) refresh_token in
       run* RefreshToken.blacklist_token token in
       ret (mkResponse (JObj [("message", JStr "Logout successful.")]) HTTP_200_OK))
      (fun _ => true)
      (raise (detail_error "Invalid token or token already blacklisted.")).
End LogoutView.

(** ** The endpoints of authentication/urls.py

    A [Request] is a call of the method of a view: [post] with the parsed
    body of the request, or the [get] of [MeView] with the authenticated
    user.  It stands for a request that the framework has authenticated,
    admitted under the permission classes of the view ([IsAuthenticated] for
    [LogoutView] and [MeView], [AllowAny] for the others) and parsed.  What
    the framework answers before the method runs (401 under
    [IsAuthenticated], the errors of the parser, 405 for another method) is
    outside the model. *)

Inductive Request : Type :=
| check_email (body : dict string)
| login (body : dict string) (env : Env)
| send_code (body : dict string) (env : Env)
| verify_code (body : dict string) (env : Env)
| register (body : dict string) (env : Env)
| logout (body : dict string) (env : Env)
| token_refresh (body : dict string) (env : Env)
| me (user : User.t).

Definition view (dj : Django) (r : Request) : View (Response Json) :=
  match r with
  | check_email body => CheckEmailView.post dj body
  | login body env => LoginView.post dj body env
  | send_code body env => SendVerificationCodeView.post dj body env
  | verify_code body env => VerifyCodeView.post dj body env
  | register body env => RegisterView.post dj body env
  | logout body env => LogoutView.post dj body env
  | token_refresh body env => TokenRefreshView.post dj body env
  | me user => MeView.get user
  end.

(** What the client receives from such a call: the response of the view, or
    the response the exception handler of the settings makes of its
    exception. *)
Definition respond (dj : Django) (r : Request) (db : Db) : Db * option (Response Json) :=
  match view dj r db with
  | (db', inr response) => (db', Some response)
  | (db', inl exc) => (db', custom_exception_handler exc)
  end.

(** The store after a sequence of requests. *)
Definition serve (dj : Django) (db : Db) (requests : list Request) : Db :=
  fold_left (fun db r => fst (view dj r db)) requests db.

(** ** A concrete instance of the libraries, for the examples *)

Definition contains_at (s : string) : bool :=
  existsb (Ascii.eqb "@"%char) (list_ascii_of_string s).

Definition demo_authenticate (us : list User.t) (email password : string) : option User.t :=
  find (fun u => String.eqb (User.email u) email && String.eqb (User.password u) password) us.

Definition demo_decode (token : string) : option Payload :=
  if String.eqb token "garbage" then None
  else Some (mkPayload token 1000000 "refresh" 1).

Definition demo : Django :=
  mkDjango contains_at (fun _ => false) (fun p => p) demo_authenticate demo_decode.

Definition env_at (clock : Z) (code : string) (mail_fails : bool) : Env :=
  mkEnv clock code mail_fails "refresh-token" "access-token".

(** A store with one user, and the signup of a second one followed by an
    attempt to register the first again under another letter case. *)
Definition one_user_db : Db :=
  mkDb [VerificationCode.mk "a@b.com" "11111" 100 700 true]
       [User.mk 1 "a@b.com" "correct-horse1" "" "" true true 150] ∅.

Definition second_signup : list Request :=
  [ send_code [("email", "C@d.com")] (env_at 200 "22222" false);
    verify_code [("email", "c@d.com"); ("code", "22222")] (env_at 260 "" false);
    register [ ("email", "c@D.com"); ("password", "correct-horse2");
               ("password_confirm", "correct-horse2") ] (env_at 300 "" false);
    register [ ("email", "A@B.com"); ("password", "correct-horse3");
               ("password_confirm", "correct-horse3") ] (env_at 400 "" false) ].

(** ** Vocabulary of the properties *)

Definition unused_for (email : string) (v : VerificationCode.t) : bool :=
  String.eqb (VerificationCode.email v) email && negb (VerificationCode.is_used v).

Definition count_unused (email : string) (cs : list VerificationCode.t) : nat :=
  length (List.filter (unused_for email) cs).

(** At most one unused code per email. *)
Definition at_most_one_unused (cs : list VerificationCode.t) : Prop :=
  forall email, (count_unused email cs <= 1)%nat.

(** The row that send-code creates. *)
Definition issued (email : string) (env : Env) : VerificationCode.t :=
  VerificationCode.mk email (generate_code env) (now env)
    (now env + minutes VERIFICATION_CODE_EXPIRY_MINUTES) false.

(** The user that registration stores. *)
Definition registered (dj : Django) (attrs : RegisterSerializer.validated_data)
                      (env : Env) (db : Db) : User.t :=
  User.mk (Z.of_nat (length (users db)) + 1)
          (RegisterSerializer.email attrs)
          (make_password dj (RegisterSerializer.password attrs))
          (default "" (RegisterSerializer.first_name attrs))
          (default "" (RegisterSerializer.last_name attrs))
          true true (now env).

(** The errors of the views, under the names the specification gives them. *)
Definition EmailDeliveryError : Exception :=
  detail_error "Failed to send email. Please try again.".
Definition NotFound : Exception := detail_error "Invalid verification code.".
Definition Expired : Exception :=
  detail_error "Verification code has expired. Please request a new one.".
Definition EmailNotVerified : Exception :=
  detail_error "Email not verified. Please verify your email first.".
Definition UserExists : Exception :=
  detail_error "User with this email already exists.".
Definition PasswordMismatch : Exception :=
  ValidationError (EDict [("password_confirm", EList ["Passwords do not match."])]).
Definition InvalidToken : Exception :=
  detail_error "Invalid token or token already blacklisted.".

(** The text of a field as the serializer reads it: the value under the key,
    stripped. *)
Definition field_text (name : string) (body : dict string) : option string :=
  option_map strip (dict_get name body).

(** A text that a non-blank field accepts when its own validators do. *)
Definition plain_text (s : string) : Prop := s <> "" /\ has_nul s = false.

(** The fields of a register request pass their own validation: the texts
    [e], [p] and [pc] of email, password and confirmation are a well-formed
    email, a password that the validators of the settings accept and a
    confirmation, and the names have at most 150 characters. *)
Definition name_ok (text : option string) : Prop :=
  match text with
  | Some s => (String.length s <= 150)%nat /\ has_nul s = false
  | None => True
  end.

Definition register_fields_ok (dj : Django) (body : dict string) (e p pc : string) : Prop :=
  field_text "email" body = Some e /\ plain_text e /\ EmailValidator dj e = true
  /\ field_text "password" body = Some p /\ plain_text p /\ validate_password dj p = []
  /\ field_text "password_confirm" body = Some pc /\ plain_text pc
  /\ name_ok (field_text "first_name" body) /\ name_ok (field_text "last_name" body).

(** What the serializer of register hands to the view for such a request. *)
Definition register_attrs (body : dict string) (e p pc : string)
  : RegisterSerializer.validated_data :=
  RegisterSerializer.mk (lower e) p pc
    (field_text "first_name" body) (field_text "last_name" body).

(** The body the exception handler makes of a [ValidationError]. *)
Definition validation_error_response (message : string) : Response Json :=
  mkResponse (JObj [("code", JStr "validation_error"); ("message", JStr message)])
             HTTP_400_BAD_REQUEST.

(** The fields of a login request pass their own validation, with the texts
    [e] and [p] of email and password. *)
Definition login_fields_ok (dj : Django) (body : dict string) (e p : string) : Prop :=
  field_text "email" body = Some e /\ plain_text e /\ EmailValidator dj e = true
  /\ field_text "password" body = Some p /\ plain_text p.

(** The code field of a verify-code request is present and its text has 5
    characters. *)
Definition code_length_5 (body : dict string) : bool :=
  match field_text "code" body with
  | Some c => Nat.eqb (String.length c) 5
  | None => false
  end.

(** A send-code request that may issue the code [C] for the email [E]. *)
Definition may_reissue (E C : string) (r : Request) : bool :=
  match r with
  | send_code body env =>
      String.eqb (generate_code env) C
      && match field_text "email" body with
         | Some e => String.eqb (lower e) E
         | None => false
         end
  | _ => false
  end.

Definition is_send_code (r : Request) : bool :=
  match r with
  | send_code _ _ => true
  | _ => false
  end.

(** ** Vocabulary of the further properties *)

(** An exception that is a [ValidationError] whose detail is a dict with at
    least one entry. *)
Definition is_validation_error (e : Exception) : Prop :=
  exists k v d, e = ValidationError (EDict ((k, v) :: d)).

(** The user table keeps its emails distinct and in lower case. *)
Definition emails_unique (us : list User.t) : Prop :=
  NoDup (map User.email us)
  /\ forall u, In u us -> lower (User.email u) = User.email u.

(** Every stored user has a used code stored for its email. *)
Definition users_have_used_code (db : Db) : Prop :=
  forall u, In u (users db) ->
    exists v, In v (codes db)
              /\ VerificationCode.email v = User.email u
              /\ VerificationCode.is_used v = true.

(** The error of the email field of send-code for a registered email. *)
Definition email_taken_error : Exception :=
  ValidationError (EDict [("email", EList ["User with this email already exists."])]).

(** A request body with the email [e] in front of the other keys. *)
Definition with_email (e : string) (rest : dict string) : dict string :=
  ("email", e) :: rest.

Definition is_token_refresh (r : Request) : bool :=
  match r with
  | token_refresh _ _ => true
  | _ => false
  end.

Definition is_register (r : Request) : bool :=
  match r with
  | register _ _ => true
  | _ => false
  end.

Definition touches_blacklist (r : Request) : bool :=
  match r with
  | logout _ _ | token_refresh _ _ => true
  | _ => false
  end.

Definition touches_codes (r : Request) : bool :=
  match r with
  | send_code _ _ | verify_code _ _ => true
  | _ => false
  end.

(** What one request does to the store. *)
Inductive Effect : Type :=
| NoChange
| Reissued (email : string) (env : Env)
| Consumed (pk : nat) (v : VerificationCode.t)
| Registered (attrs : RegisterSerializer.validated_data) (env : Env)
| Blacklisted (payload : Payload).

Definition apply_effect (dj : Django) (eff : Effect) (db : Db) : Db :=
  match eff with
  | NoChange => db
  | Reissued email env =>
      with_codes (invalidate_unused email (codes db) ++ [issued email env]) db
  | Consumed pk v =>
      with_codes (save_code pk (VerificationCode.set_is_used true v) (codes db)) db
  | Registered attrs env => with_users (users db ++ [registered dj attrs env db]) db
  | Blacklisted payload => with_blacklist ({[ jti payload ]} ∪ blacklist db) db
  end.

(** The conditions under which a request has an effect. *)
Definition effect_of (dj : Django) (r : Request) (db : Db) (eff : Effect) : Prop :=
  match eff with
  | NoChange => True
  | Reissued email env =>
      exists body, r = send_code body env
                   /\ SendVerificationCodeSerializer.is_valid dj body db = (db, inr email)
  | Consumed pk v =>
      exists body env email code,
        r = verify_code body env
        /\ latest (matches email code) (codes db) = Some (pk, v)
        /\ VerificationCode.is_valid (now env) v = true
  | Registered attrs env =>
      exists body e,
        r = register body env
        /\ RegisterSerializer.email attrs = lower e
        /\ first_used (lower e) (codes db) <> None
        /\ user_exists (lower e) (users db) = false
  | Blacklisted payload =>
      touches_blacklist r = true /\ jti payload ∉ blacklist db
  end.

(** * Properties *)

Example handler_detail :
  custom_exception_handler (ValidationError (EDict [("detail", EStr "Invalid verification code.")]))
  = Some (mkResponse (JObj [("code", JStr "validation_error");
                            ("message", JStr "Invalid verification code.")]) 400).
Proof. reflexivity. Qed.

Example handler_field_errors :
  custom_exception_handler
    (ValidationError (EDict [("password_confirm", EList ["Passwords do not match."])]))
  = Some (validation_error_response "Passwords do not match.").
Proof. reflexivity. Qed.

Example handler_unhandled :
  custom_exception_handler (PyException "SMTPException" (Some "connection refused"))
  = Some (mkResponse (JObj [("code", JStr "server_error");
                            ("message", JStr "connection refused")]) 500).
Proof. reflexivity. Qed.

Example handler_http404 :
  custom_exception_handler (PyException "Http404" None)
  = Some (mkResponse (JObj [("code", JStr "Http404"); ("message", JStr "Not found.")]) 404).
Proof. reflexivity. Qed.

Example lower_mixed : lower "A@B.com" = "a@b.com".
Proof. reflexivity. Qed.

(** The signup scenario: request a code, verify it, register. *)
Example signup_scenario :
  let requests :=
    [ send_code [("email", "a@b.com")] (env_at 100 "12345" false);
      verify_code [("email", "a@b.com"); ("code", "12345")] (env_at 160 "" false) ] in
  let db := serve demo empty_db requests in
  codes db = [VerificationCode.mk "a@b.com" "12345" 100 700 true]
  /\ option_map status
       (snd (respond demo (register [ ("email", "a@b.com"); ("password", "correct-horse1");
                                      ("password_confirm", "correct-horse1") ]
                                    (env_at 200 "" false)) db))
     = Some HTTP_201_CREATED.
Proof. split; reflexivity. Qed.

Example check_email_unknown :
  snd (respond demo (check_email [("email", "nobody@b.com")]) empty_db)
  = Some (mkResponse
            (JObj [ ("exists", JBool false);
                    ("message", JStr "New user. Verification code will be sent.") ])
            HTTP_200_OK).
Proof. reflexivity. Qed.

(** ** Strings *)

Lemma eqb_empty_false s : s <> "" -> String.eqb s "" = false.
Proof. intros H. now apply String.eqb_neq. Qed.

Lemma lower_empty s : s <> "" -> String.eqb (lower s) "" = false.
Proof. destruct s; [congruence | reflexivity]. Qed.

(** ** Fields on plain texts *)

Lemma text_field_text required allow_blank validators raw t :
  option_map strip raw = Some t -> t <> "" ->
  text_field required allow_blank validators raw = run_validators validators t.
Proof.
  destruct raw as [data|]; [|discriminate]. simpl. intros [= <-] Hne.
  now rewrite (eqb_empty_false _ Hne).
Qed.

Lemma nul_validator_plain t : has_nul t = false -> ProhibitNullCharactersValidator t = [].
Proof. unfold ProhibitNullCharactersValidator. now intros ->. Qed.

Lemma email_field_valid dj raw e :
  option_map strip raw = Some e -> plain_text e -> EmailValidator dj e = true ->
  EmailField dj raw = Valid e.
Proof.
  intros Hraw [Hne Hnul] Hv. unfold EmailField.
  rewrite (text_field_text _ _ _ _ _ Hraw Hne). unfold run_validators. simpl.
  now rewrite (nul_validator_plain _ Hnul), Hv.
Qed.

Lemma char_field_valid required allow_blank raw t :
  option_map strip raw = Some t -> plain_text t ->
  CharField required allow_blank None None [] raw = Valid t.
Proof.
  intros Hraw [Hne Hnul]. unfold CharField.
  rewrite (text_field_text _ _ _ _ _ Hraw Hne). unfold run_validators. simpl.
  now rewrite (nul_validator_plain _ Hnul).
Qed.

(** ** The invariant of the code table *)

Lemma count_unused_app email cs cs' :
  count_unused email (cs ++ cs') = (count_unused email cs + count_unused email cs')%nat.
Proof. unfold count_unused. now rewrite List.filter_app, length_app. Qed.

Lemma unused_for_set_used email v :
  unused_for email (VerificationCode.set_is_used true v) = false.
Proof. unfold unused_for. simpl. apply andb_false_r. Qed.

Lemma count_unused_invalidate email email' cs :
  count_unused email' (invalidate_unused email cs)
  = if String.eqb email' email then 0%nat else count_unused email' cs.
Proof.
  unfold count_unused, invalidate_unused.
  induction cs as [|v cs IH]; simpl.
  - now destruct (String.eqb email' email).
  - destruct (String.eqb email' email) eqn:Heq.
    + apply String.eqb_eq in Heq. subst email'.
      destruct (String.eqb (VerificationCode.email v) email
                && negb (VerificationCode.is_used v)) eqn:Hv.
      * rewrite unused_for_set_used. exact IH.
      * unfold unused_for at 1. rewrite Hv. exact IH.
    + destruct (String.eqb (VerificationCode.email v) email
                && negb (VerificationCode.is_used v)) eqn:Hv.
      * rewrite unused_for_set_used.
        apply andb_prop in Hv. destruct Hv as [Hv _].
        apply String.eqb_eq in Hv.
        unfold unused_for at 2. rewrite Hv, String.eqb_sym, Heq. exact IH.
      * destruct (unused_for email' v); simpl; now rewrite IH.
Qed.

Lemma count_unused_save email pk v cs :
  cs !! pk = Some v ->
  count_unused email cs
  = ((if unused_for email v then 1 else 0)
     + count_unused email (save_code pk (VerificationCode.set_is_used true v) cs))%nat.
Proof.
  unfold count_unused, save_code.
  revert pk. induction cs as [|w cs IH]; intros [|pk] Hpk; simpl in *; try discriminate.
  - injection Hpk as ->. rewrite unused_for_set_used.
    now destruct (unused_for email v).
  - specialize (IH pk Hpk).
    destruct (unused_for email w), (unused_for email v); simpl in *; lia.
Qed.

Lemma count_unused_unique email cs i j v w :
  (count_unused email cs <= 1)%nat ->
  cs !! i = Some v -> cs !! j = Some w ->
  unused_for email v = true -> unused_for email w = true -> i = j.
Proof.
  unfold count_unused.
  revert i j. induction cs as [|x cs IH]; intros i j Hc Hi Hj Hv Hw.
  - discriminate.
  - assert (Hin : forall k y, cs !! k = Some y -> unused_for email y = true ->
                  (1 <= length (List.filter (unused_for email) cs))%nat).
    { clear. induction cs as [|z cs IH]; intros [|k] y Hk Hy; simpl in *; try discriminate.
      - injection Hk as ->. rewrite Hy. simpl. lia.
      - destruct (unused_for email z); simpl; [lia | eauto]. }
    simpl in Hc.
    destruct i as [|i], j as [|j]; simpl in Hi, Hj; trivial.
    + injection Hi as ->. rewrite Hv in Hc. simpl in Hc.
      pose proof (Hin _ _ Hj Hw). lia.
    + injection Hj as ->. rewrite Hw in Hc. simpl in Hc.
      pose proof (Hin _ _ Hi Hv). lia.
    + f_equal. apply IH; trivial.
      destruct (unused_for email x); simpl in Hc; lia.
Qed.

Lemma count_unused_zero email cs :
  count_unused email cs = 0%nat ->
  forall v, In v cs -> unused_for email v = false.
Proof.
  unfold count_unused. intros H v Hin.
  destruct (unused_for email v) eqn:Hv; trivial.
  assert (Hf : In v (List.filter (unused_for email) cs)) by (apply List.filter_In; auto).
  destruct (List.filter (unused_for email) cs); [destruct Hf | discriminate].
Qed.

Lemma matches_unused email code v :
  matches email code v = true -> unused_for email v = true.
Proof.
  unfold matches, unused_for. intros H.
  apply andb_prop in H. destruct H as [H Hu].
  apply andb_prop in H. destruct H as [He _].
  now rewrite He, Hu.
Qed.

(** ** [latest] *)

Lemma latest_from_spec p cs : forall k best,
  match latest_from k p cs best with
  | None => best = None /\ forall v, In v cs -> p v = false
  | Some (pk, v) =>
      (best = Some (pk, v) \/ ((k <= pk)%nat /\ cs !! (pk - k)%nat = Some v /\ p v = true))
      /\ (forall v', In v' cs -> p v' = true ->
            VerificationCode.created_at v' <= VerificationCode.created_at v)
      /\ (forall b, best = Some b ->
            VerificationCode.created_at (snd b) <= VerificationCode.created_at v)
  end.
Proof.
  induction cs as [|x cs IH]; intros k best; simpl.
  - destruct best as [[pk v]|].
    + split; [now left|]. split; [intros ? []|]. intros b [= <-]. simpl. lia.
    + split; [reflexivity | intros ? []].
  - set (best' := if p x then _ else best).
    specialize (IH (S k) best').
    destruct (latest_from (S k) p cs best') as [[pk v]|].
    + destruct IH as (Hsrc & Hmax & Hbest).
      assert (Hx : p x = true ->
                   VerificationCode.created_at x <= VerificationCode.created_at v).
      { intros Hp. subst best'. rewrite Hp in Hbest.
        destruct best as [[bk b]|].
        - destruct (VerificationCode.created_at b <=? VerificationCode.created_at x) eqn:Hle.
          + apply (Hbest (k, x)). reflexivity.
          + apply Z.leb_gt in Hle. specialize (Hbest (bk, b) eq_refl). simpl in Hbest. lia.
        - apply (Hbest (k, x)). reflexivity. }
      split; [|split].
      * destruct Hsrc as [Hsrc | (Hk & Hlk & Hp)].
        -- subst best'. destruct (p x) eqn:Hp; [|now left].
           destruct best as [[bk b]|].
           ++ destruct (VerificationCode.created_at b <=? VerificationCode.created_at x).
              ** injection Hsrc as <- <-. right.
                 rewrite Nat.sub_diag. simpl. auto.
              ** now left.
           ++ injection Hsrc as <- <-. right. rewrite Nat.sub_diag. simpl. auto.
        -- right. split; [lia|]. split; trivial.
           replace (pk - k)%nat with (S (pk - S k)) by lia. exact Hlk.
      * intros v' [<- | Hin] Hp; auto.
      * intros b ->. subst best'. destruct (p x) eqn:Hp.
        -- destruct b as [bk b]. simpl.
           destruct (VerificationCode.created_at b <=? VerificationCode.created_at x) eqn:Hle.
           ++ apply Z.leb_le in Hle. specialize (Hx eq_refl). lia.
           ++ apply (Hbest (bk, b)). reflexivity.
        -- apply Hbest. reflexivity.
    + destruct IH as (Hnone & Hall). subst best'.
      destruct (p x) eqn:Hp.
      * destruct best as [[bk b]|]; [|discriminate].
        destruct (VerificationCode.created_at b <=? VerificationCode.created_at x);
          discriminate.
      * split; trivial. intros v [<- | Hin]; auto.
Qed.

Lemma latest_None p cs :
  latest p cs = None <-> forall v, In v cs -> p v = false.
Proof.
  unfold latest. pose proof (latest_from_spec p cs 0 None) as H.
  destruct (latest_from 0 p cs None) as [[pk v]|].
  - destruct H as ([Hb | (_ & Hlk & Hp)] & _); [discriminate|].
    split; [discriminate|]. intros Hall.
    rewrite Nat.sub_0_r in Hlk. apply list_elem_of_lookup_2, list_elem_of_In in Hlk.
    rewrite (Hall v Hlk) in Hp. discriminate.
  - destruct H as [_ H]. split; auto.
Qed.

Lemma latest_Some p cs pk v :
  latest p cs = Some (pk, v) ->
  cs !! pk = Some v /\ p v = true
  /\ forall v', In v' cs -> p v' = true ->
       VerificationCode.created_at v' <= VerificationCode.created_at v.
Proof.
  unfold latest. intros H. pose proof (latest_from_spec p cs 0 None) as S.
  rewrite H in S. destruct S as ([Hb | (_ & Hlk & Hp)] & Hmax & _); [discriminate|].
  rewrite Nat.sub_0_r in Hlk. auto.
Qed.

(** Under the invariant the row that [latest] returns is the one matching
    row there is. *)
Lemma latest_unique email code cs pk v :
  (count_unused email cs <= 1)%nat ->
  cs !! pk = Some v -> matches email code v = true ->
  latest (matches email code) cs = Some (pk, v).
Proof.
  intros Hinv Hlk Hm.
  destruct (latest (matches email code) cs) as [[pk' v']|] eqn:Hl.
  - apply latest_Some in Hl. destruct Hl as (Hlk' & Hm' & _).
    assert (pk' = pk).
    { eapply (count_unused_unique email); eauto using matches_unused. }
    subst pk'. congruence.
  - rewrite latest_None in Hl.
    apply list_elem_of_lookup_2, list_elem_of_In in Hlk.
    rewrite (Hl v Hlk) in Hm. discriminate.
Qed.

(** ** The views, step by step *)

Ltac unfold_view :=
  unfold bind, ret, raise, query, execute, try_except in *; simpl in *.

Section Views.
Variable dj : Django.

Lemma send_serializer_pure body db :
  fst (SendVerificationCodeSerializer.is_valid dj body db) = db.
Proof.
  unfold SendVerificationCodeSerializer.is_valid. unfold_view.
  now destruct (value_of _).
Qed.

Lemma send_serializer_users body db db' :
  users db' = users db ->
  snd (SendVerificationCodeSerializer.is_valid dj body db')
  = snd (SendVerificationCodeSerializer.is_valid dj body db).
Proof.
  intros Hu. unfold SendVerificationCodeSerializer.is_valid,
    SendVerificationCodeSerializer.validate_email. unfold_view.
  rewrite Hu. now destruct (value_of _).
Qed.

Lemma verify_serializer_pure body db :
  fst (VerifyCodeSerializer.is_valid dj body db) = db.
Proof.
  unfold VerifyCodeSerializer.is_valid. unfold_view.
  destruct (value_of _); [destruct (value_of _)|]; reflexivity.
Qed.

Lemma verify_serializer_any body db db' :
  snd (VerifyCodeSerializer.is_valid dj body db')
  = snd (VerifyCodeSerializer.is_valid dj body db).
Proof.
  unfold VerifyCodeSerializer.is_valid. unfold_view.
  destruct (value_of _); [destruct (value_of _)|]; reflexivity.
Qed.

Lemma register_serializer_pure body db :
  fst (RegisterSerializer.is_valid dj body db) = db.
Proof.
  unfold RegisterSerializer.is_valid. unfold_view.
  repeat match goal with
         | |- context [match ?x with _ => _ end] => destruct x
         end; reflexivity.
Qed.

(** send-code on a request that passes the serializer: the store it leaves
    and its outcome. *)
Lemma send_code_accepted body env db email :
  SendVerificationCodeSerializer.is_valid dj body db = (db, inr email) ->
  SendVerificationCodeView.post dj body env db
  = (with_codes (invalidate_unused email (codes db) ++ [issued email env]) db,
     if send_mail_raises env then inl EmailDeliveryError
     else inr (mkResponse
                 (JObj [ ("message", JStr "Verification code sent to email.");
                         ("expires_in_minutes", JInt VERIFICATION_CODE_EXPIRY_MINUTES) ])
                 HTTP_200_OK)).
Proof.
  intros Hv. unfold SendVerificationCodeView.post, bind at 1. rewrite Hv.
  unfold SendVerificationCodeView.send_mail, with_codes, create_code, issued.
  unfold_view. now destruct (send_mail_raises env).
Qed.

Lemma send_code_rejected body env db e :
  SendVerificationCodeSerializer.is_valid dj body db = (db, inl e) ->
  SendVerificationCodeView.post dj body env db = (db, inl e).
Proof.
  intros Hv. unfold SendVerificationCodeView.post, bind at 1. now rewrite Hv.
Qed.

(** verify-code on a request that passes the serializer. *)
Lemma verify_code_accepted body env db email code :
  VerifyCodeSerializer.is_valid dj body db
  = (db, inr (VerifyCodeSerializer.mk email code)) ->
  VerifyCodeView.post dj body env db
  = match latest (matches email code) (codes db) with
    | None => (db, inl NotFound)
    | Some (pk, v) =>
        if VerificationCode.is_valid (now env) v
        then (with_codes (save_code pk (VerificationCode.set_is_used true v) (codes db)) db,
              inr (mkResponse
                     (JObj [ ("verified", JBool true);
                             ("message",
                              JStr "Code verified successfully. Please set your password.") ])
                     HTTP_200_OK))
        else (db, inl Expired)
    end.
Proof.
  intros Hv. unfold VerifyCodeView.post, bind at 1. rewrite Hv.
  unfold_view.
  destruct (latest (matches email code) (codes db)) as [[pk v]|]; simpl; trivial.
  destruct (VerificationCode.is_valid (now env) v); reflexivity.
Qed.

Lemma verify_code_rejected body env db e :
  VerifyCodeSerializer.is_valid dj body db = (db, inl e) ->
  VerifyCodeView.post dj body env db = (db, inl e).
Proof.
  intros Hv. unfold VerifyCodeView.post, bind at 1. now rewrite Hv.
Qed.

(** register on a request that passes the serializer. *)
Lemma register_accepted body env db attrs :
  RegisterSerializer.is_valid dj body db = (db, inr attrs) ->
  RegisterView.post dj body env db
  = match first_used (RegisterSerializer.email attrs) (codes db) with
    | None => (db, inl EmailNotVerified)
    | Some _ =>
        if user_exists (RegisterSerializer.email attrs) (users db)
        then (db, inl UserExists)
        else (with_users (users db ++ [registered dj attrs env db]) db,
              inr (mkResponse
                     (JObj [ ("access", JStr (minted_access env));
                             ("refresh", JStr (minted_refresh env));
                             ("user", UserSerializer.data (registered dj attrs env db));
                             ("message", JStr "Registration successful.") ])
                     HTTP_201_CREATED))
    end.
Proof.
  intros Hv. unfold RegisterView.post, bind at 1. rewrite Hv.
  unfold RegisterSerializer.create, registered. unfold_view.
  destruct (first_used _ _); trivial.
  destruct (user_exists _ _); reflexivity.
Qed.

Lemma register_rejected body env db e :
  RegisterSerializer.is_valid dj body db = (db, inl e) ->
  RegisterView.post dj body env db = (db, inl e).
Proof.
  intros Hv. unfold RegisterView.post, bind at 1. now rewrite Hv.
Qed.

(** What a request can do to the code table: nothing, the reissue of
    send-code, or the consumption of verify-code. *)
Lemma view_codes_cases r db :
  codes (fst (view dj r db)) = codes db
  \/ (exists body env email,
        r = send_code body env
        /\ codes (fst (view dj r db))
           = (invalidate_unused email (codes db) ++ [issued email env])%list)
  \/ (exists body env email code pk v,
        r = verify_code body env
        /\ latest (matches email code) (codes db) = Some (pk, v)
        /\ codes (fst (view dj r db))
           = save_code pk (VerificationCode.set_is_used true v) (codes db)).
Proof.
  destruct r as [body|body env|body env|body env|body env|body env|body env|user]; simpl.
  - left. unfold CheckEmailView.post, CheckEmailSerializer.is_valid. unfold_view.
    now destruct (value_of _).
  - left. unfold LoginView.post, LoginSerializer.is_valid. unfold_view.
    destruct (value_of _); [destruct (value_of _)|]; trivial.
    now destruct (LoginSerializer.validate _ _ _ _).
  - pose proof (send_serializer_pure body db) as Hp.
    destruct (SendVerificationCodeSerializer.is_valid dj body db) as [db0 [e|email]] eqn:Hv;
      simpl in Hp; subst db0.
    + left. now rewrite (send_code_rejected _ _ _ _ Hv).
    + right. left. exists body, env, email. split; trivial.
      now rewrite (send_code_accepted _ _ _ _ Hv).
  - pose proof (verify_serializer_pure body db) as Hp.
    destruct (VerifyCodeSerializer.is_valid dj body db) as [db0 [e|[email code]]] eqn:Hv;
      simpl in Hp; subst db0.
    + left. now rewrite (verify_code_rejected _ _ _ _ Hv).
    + rewrite (verify_code_accepted _ _ _ _ _ Hv).
      destruct (latest (matches email code) (codes db)) as [[pk v]|] eqn:Hl; [|now left].
      destruct (VerificationCode.is_valid (now env) v); [|now left].
      right. right. exists body, env, email, code, pk, v. auto.
  - left. pose proof (register_serializer_pure body db) as Hp.
    destruct (RegisterSerializer.is_valid dj body db) as [db0 [e|attrs]] eqn:Hv;
      simpl in Hp; subst db0.
    + now rewrite (register_rejected _ _ _ _ Hv).
    + rewrite (register_accepted _ _ _ _ Hv).
      destruct (first_used _ _); trivial. now destruct (user_exists _ _).
  - left. unfold LogoutView.post, LogoutSerializer.is_valid, RefreshToken.verify,
      RefreshToken.blacklist_token. unfold_view.
    destruct (value_of _) as [t|]; trivial. simpl.
    destruct (String.eqb t ""); trivial.
    destruct (decode dj t) as [payload|]; trivial.
    destruct (exp payload <=? now env); trivial.
    destruct (negb _); trivial. simpl.
    now destruct (bool_decide _).
  - left. unfold TokenRefreshView.post, TokenRefreshView.is_valid,
      LogoutSerializer.is_valid, RefreshToken.verify,
      RefreshToken.blacklist_token. unfold_view.
    destruct (value_of _) as [t|]; trivial. simpl.
    destruct (decode dj t) as [payload|]; trivial.
    destruct (exp payload <=? now env); trivial.
    destruct (negb _); trivial. simpl.
    now destruct (bool_decide _).
  - now left.
Qed.

Lemma view_preserves_invariant r db :
  at_most_one_unused (codes db) -> at_most_one_unused (codes (fst (view dj r db))).
Proof.
  intros Hinv.
  destruct (view_codes_cases r db)
    as [-> | [(body & env & email & _ & ->) | (body & env & email & code & pk & v & _ & Hl & ->)]];
    trivial; intros e.
  - rewrite count_unused_app, count_unused_invalidate.
    unfold count_unused at 2. simpl. unfold unused_for at 1. simpl.
    rewrite andb_true_r, (String.eqb_sym email e).
    destruct (String.eqb e email); simpl; [lia|]. specialize (Hinv e). lia.
  - apply latest_Some in Hl. destruct Hl as (Hlk & _).
    specialize (Hinv e). rewrite (count_unused_save e _ _ _ Hlk) in Hinv. lia.
Qed.

Lemma serve_preserves_invariant reqs : forall db,
  at_most_one_unused (codes db) -> at_most_one_unused (codes (serve dj db reqs)).
Proof.
  induction reqs as [|r reqs IH]; intros db Hinv; simpl; trivial.
  apply IH, view_preserves_invariant, Hinv.
Qed.

Lemma invalidate_unused_lookup email cs pk v :
  cs !! pk = Some v ->
  exists v', invalidate_unused email cs !! pk = Some v'
             /\ (v' = v \/ v' = VerificationCode.set_is_used true v).
Proof.
  unfold invalidate_unused. revert pk.
  induction cs as [|x cs IH]; intros [|pk] H; simpl in *; try discriminate.
  - injection H as ->. destruct (_ && _); eauto.
  - eauto.
Qed.

(** Rows are never removed, and a flag [is_used] is never cleared. *)
Lemma view_keeps_rows r db pk v :
  codes db !! pk = Some v ->
  exists v', codes (fst (view dj r db)) !! pk = Some v'
             /\ (v' = v \/ v' = VerificationCode.set_is_used true v).
Proof.
  intros Hlk.
  destruct (view_codes_cases r db)
    as [-> | [(body & env & email & _ & ->) | (body & env & email & code & k & w & _ & Hl & ->)]].
  - eauto.
  - destruct (invalidate_unused_lookup email _ _ _ Hlk) as (v' & Hv' & Hor).
    exists v'. split; trivial. rewrite lookup_app_l; trivial.
    now apply lookup_lt_Some in Hv'.
  - apply latest_Some in Hl. destruct Hl as (Hk & _). unfold save_code.
    destruct (decide (k = pk)) as [->|Hne].
    + rewrite list_lookup_insert_eq by now apply lookup_lt_Some in Hlk.
      assert (w = v) by congruence. subst w. eauto.
    + rewrite list_lookup_insert_ne by trivial. eauto.
Qed.

Lemma serve_keeps_used reqs : forall db pk v,
  codes db !! pk = Some v -> VerificationCode.is_used v = true ->
  exists v', codes (serve dj db reqs) !! pk = Some v'
             /\ VerificationCode.is_used v' = true
             /\ VerificationCode.email v' = VerificationCode.email v
             /\ VerificationCode.code v' = VerificationCode.code v.
Proof.
  induction reqs as [|r reqs IH]; intros db pk v Hlk Hu; simpl.
  - eauto.
  - destruct (view_keeps_rows r db pk v Hlk) as (v' & Hv' & Hor).
    assert (Hsame : VerificationCode.is_used v' = true
                    /\ VerificationCode.email v' = VerificationCode.email v
                    /\ VerificationCode.code v' = VerificationCode.code v)
      by (destruct Hor as [-> | ->]; auto).
    destruct Hsame as (Hu' & He & Hc).
    destruct (IH _ _ _ Hv' Hu') as (v'' & ? & ? & ? & ?).
    exists v''. repeat split; congruence.
Qed.

(** Without a send-code request no code becomes unused. *)
Lemma view_no_reissue r db email :
  is_send_code r = false ->
  (count_unused email (codes (fst (view dj r db))) <= count_unused email (codes db))%nat.
Proof.
  intros Hr.
  destruct (view_codes_cases r db)
    as [-> | [(body & env & e & -> & _) | (body & env & e & code & k & w & _ & Hl & ->)]];
    trivial; try discriminate.
  apply latest_Some in Hl. destruct Hl as (Hk & _).
  rewrite (count_unused_save email _ _ _ Hk). lia.
Qed.

Lemma serve_no_reissue reqs : forall db email,
  forallb (fun r => negb (is_send_code r)) reqs = true ->
  (count_unused email (codes (serve dj db reqs)) <= count_unused email (codes db))%nat.
Proof.
  induction reqs as [|r reqs IH]; intros db email Hall; simpl in *; trivial.
  apply andb_prop in Hall. destruct Hall as [Hr Hall].
  apply negb_true_iff in Hr.
  etransitivity; [apply IH, Hall | apply view_no_reissue, Hr].
Qed.

Lemma invalidate_unused_idem email cs :
  invalidate_unused email (invalidate_unused email cs) = invalidate_unused email cs.
Proof.
  unfold invalidate_unused. induction cs as [|v cs IH]; simpl; trivial.
  rewrite IH. f_equal.
  destruct (String.eqb (VerificationCode.email v) email
            && negb (VerificationCode.is_used v)) eqn:Hv; simpl.
  - now rewrite andb_false_r.
  - now rewrite Hv.
Qed.

Lemma invalidate_unused_used email cs v :
  In v (invalidate_unused email cs) ->
  VerificationCode.email v = email -> VerificationCode.is_used v = true.
Proof.
  intros Hin He.
  pose proof (count_unused_invalidate email email cs) as Hc.
  rewrite String.eqb_refl in Hc.
  pose proof (count_unused_zero _ _ Hc v Hin) as Hu.
  unfold unused_for in Hu. rewrite He, String.eqb_refl in Hu. simpl in Hu.
  now apply negb_false_iff in Hu.
Qed.

(** The table after two consecutive reissues for one email. *)
Lemma send_code_twice email env1 env2 cs :
  (invalidate_unused email (invalidate_unused email cs ++ [issued email env1])
   ++ [issued email env2]
   = invalidate_unused email cs
     ++ [VerificationCode.set_is_used true (issued email env1); issued email env2])%list.
Proof.
  unfold invalidate_unused at 1. rewrite map_app. fold (invalidate_unused email).
  fold (invalidate_unused email (invalidate_unused email cs)).
  rewrite invalidate_unused_idem, <- app_assoc. simpl.
  now rewrite String.eqb_refl.
Qed.

Lemma count_unused_reissued email env cs :
  count_unused email (invalidate_unused email cs ++ [issued email env]) = 1%nat.
Proof.
  rewrite count_unused_app, count_unused_invalidate, String.eqb_refl.
  unfold count_unused, unused_for. simpl. now rewrite String.eqb_refl.
Qed.

End Views.

(** ** Issuing a code (send-code) *)

Section SendCode.
Variable dj : Django.

(** C1.  After the serializer has accepted the email [E], send-code marks
    every unused code of [E] used and then appends the new, unused code, so
    the new code is the one unused code of [E]; every store that the
    endpoints reach from the empty one, and every store reached from one
    that has at most one unused code per email, has at most one unused code
    per email; and after two consecutive send-code calls for [E] the first
    code is stored used, a verify-code request for [E] with any code other
    than the second is answered "Invalid verification code.", and a
    verify-code request for [E] that succeeds carries the second code. *)
Theorem send_code_supersedes (body1 body2 : dict string) (env1 env2 : Env)
                             (db : Db) (E : string) :
  SendVerificationCodeSerializer.is_valid dj body1 db = (db, inr E) ->
  SendVerificationCodeSerializer.is_valid dj body2 db = (db, inr E) ->
  let db1 := fst (view dj (send_code body1 env1) db) in
  let db2 := fst (view dj (send_code body2 env2) db1) in
  codes db1 = (invalidate_unused E (codes db) ++ [issued E env1])%list
  /\ (forall v, In v (invalidate_unused E (codes db)) ->
                VerificationCode.email v = E -> VerificationCode.is_used v = true)
  /\ List.filter (unused_for E) (codes db1) = [issued E env1]
  /\ (forall requests, at_most_one_unused (codes (serve dj empty_db requests)))
  /\ (forall db0 requests, at_most_one_unused (codes db0) ->
                           at_most_one_unused (codes (serve dj db0 requests)))
  /\ codes db2
     = (invalidate_unused E (codes db)
        ++ [VerificationCode.set_is_used true (issued E env1); issued E env2])%list
  /\ (forall body env c,
        VerifyCodeSerializer.is_valid dj body db2
        = (db2, inr (VerifyCodeSerializer.mk E c)) ->
        (c <> generate_code env2 ->
         view dj (verify_code body env) db2 = (db2, inl NotFound))
        /\ (forall response,
              snd (view dj (verify_code body env) db2) = inr response ->
              c = generate_code env2)).
Proof.
  intros Hv1 Hv2 db1 db2.
  assert (Hdb1 : db1 = with_codes (invalidate_unused E (codes db) ++ [issued E env1]) db).
  { subst db1. simpl. now rewrite (send_code_accepted dj _ _ _ _ Hv1). }
  assert (Hv2' : SendVerificationCodeSerializer.is_valid dj body2 db1 = (db1, inr E)).
  { pose proof (send_serializer_pure dj body2 db1) as Hf.
    pose proof (send_serializer_users dj body2 db db1) as Hs.
    rewrite Hv2 in Hs. simpl in Hs.
    destruct (SendVerificationCodeSerializer.is_valid dj body2 db1) as [d r].
    simpl in *. rewrite Hf, Hs; trivial. now rewrite Hdb1. }
  assert (Hdb2 : codes db2
                 = (invalidate_unused E (codes db)
                    ++ [VerificationCode.set_is_used true (issued E env1);
                        issued E env2])%list).
  { subst db2. simpl. rewrite (send_code_accepted dj _ _ _ _ Hv2'). simpl.
    rewrite Hdb1. simpl. apply send_code_twice. }
  assert (Hone : (count_unused E (codes db2) <= 1)%nat).
  { subst db2. simpl. rewrite (send_code_accepted dj _ _ _ _ Hv2'). simpl.
    now rewrite count_unused_reissued. }
  assert (Hlast : codes db2 !! S (length (invalidate_unused E (codes db)))
                  = Some (issued E env2)).
  { rewrite Hdb2, lookup_app_r by lia.
    replace (S _ - _)%nat with 1%nat by lia. reflexivity. }
  assert (Hun2 : unused_for E (issued E env2) = true).
  { unfold unused_for. simpl. now rewrite String.eqb_refl. }
  assert (Honly : forall c pk v, codes db2 !! pk = Some v -> matches E c v = true ->
                                 c = generate_code env2).
  { intros c pk v Hlk Hm.
    assert (pk = S (length (invalidate_unused E (codes db)))).
    { eapply (count_unused_unique E); eauto using matches_unused. }
    subst pk. assert (v = issued E env2) by congruence. subst v.
    unfold matches in Hm. simpl in Hm.
    apply andb_prop in Hm. destruct Hm as [Hm _].
    apply andb_prop in Hm. destruct Hm as [_ Hm].
    now apply String.eqb_eq in Hm. }
  split; [now rewrite Hdb1|].
  split; [apply invalidate_unused_used|].
  split.
  { rewrite Hdb1. simpl. rewrite List.filter_app.
    pose proof (count_unused_invalidate E E (codes db)) as Hz.
    rewrite String.eqb_refl in Hz. unfold count_unused in Hz.
    apply length_zero_iff_nil in Hz. rewrite Hz. simpl.
    now rewrite Hun2 || (unfold unused_for; simpl; rewrite String.eqb_refl). }
  split.
  { intros requests. apply serve_preserves_invariant. intros e. cbv. lia. }
  split; [intros db0 requests; apply serve_preserves_invariant|].
  split; trivial.
  intros body env c Hvc. simpl. rewrite (verify_code_accepted dj _ _ _ _ _ Hvc).
  destruct (latest (matches E c) (codes db2)) as [[pk v]|] eqn:Hl.
  - apply latest_Some in Hl. destruct Hl as (Hlk & Hm & _).
    pose proof (Honly _ _ _ Hlk Hm) as Hc.
    split; [intros Hne; contradiction | trivial].
  - split; [reflexivity | intros response H; discriminate].
Qed.

End SendCode.

Lemma send_code_supersedes_witness :
  List.filter (unused_for "a@b.com")
    (codes (fst (view demo (send_code [("email", "A@b.com")] (env_at 100 "11111" false))
                      empty_db)))
  = [issued "a@b.com" (env_at 100 "11111" false)].
Proof.
  pose proof (send_code_supersedes demo
                [("email", "A@b.com")] [("email", "a@B.com")]
                (env_at 100 "11111" false) (env_at 160 "22222" true)
                empty_db "a@b.com" eq_refl eq_refl) as H.
  exact (proj1 (proj2 (proj2 H))).
Defined.

(** ** Consuming a code (verify-code) *)

Section VerifyCode.
Variable dj : Django.

Lemma verify_serializer_at body db db' validated :
  snd (VerifyCodeSerializer.is_valid dj body db) = inr validated ->
  VerifyCodeSerializer.is_valid dj body db' = (db', inr validated).
Proof.
  intros H.
  pose proof (verify_serializer_pure dj body db') as Hf.
  pose proof (verify_serializer_any dj body db db') as Hs.
  destruct (VerifyCodeSerializer.is_valid dj body db') as [d r].
  simpl in *. congruence.
Qed.

Lemma no_unused_no_match email code cs :
  count_unused email cs = 0%nat -> latest (matches email code) cs = None.
Proof.
  intros Hz. apply latest_None. intros v Hin.
  pose proof (count_unused_zero _ _ Hz v Hin) as Hu.
  destruct (matches email code v) eqn:Hm; trivial.
  apply matches_unused in Hm. congruence.
Qed.

Lemma send_serializer_email body db email :
  SendVerificationCodeSerializer.is_valid dj body db = (db, inr email) ->
  exists raw, field_text "email" body = Some raw /\ email = lower raw.
Proof.
  unfold SendVerificationCodeSerializer.is_valid,
    SendVerificationCodeSerializer.validate_email, field_text, EmailField, text_field.
  unfold_view.
  destruct (dict_get "email" body) as [data|]; [|discriminate]. simpl.
  exists (strip data). split; trivial.
  destruct (String.eqb (strip data) ""); [discriminate|].
  destruct (run_validators _ (strip data)) as [|errors|value] eqn:Hrun; try discriminate.
  assert (value = strip data).
  { unfold run_validators in Hrun. destruct (concat _); congruence. }
  subst value. simpl in H.
  destruct (user_exists (lower (strip data)) (users db)); simpl in H; congruence.
Qed.

Lemma no_match_invalidate E C email cs :
  (forall v, In v cs -> matches E C v = false) ->
  forall v, In v (invalidate_unused email cs) -> matches E C v = false.
Proof.
  intros Hno v Hin. unfold invalidate_unused in Hin.
  apply in_map_iff in Hin. destruct Hin as (w & <- & Hw).
  destruct (_ && _); [|now apply Hno].
  unfold matches. simpl. now rewrite andb_false_r.
Qed.

Lemma no_match_save E C pk w cs :
  (forall v, In v cs -> matches E C v = false) ->
  forall v, In v (save_code pk (VerificationCode.set_is_used true w) cs) ->
            matches E C v = false.
Proof.
  intros Hno v Hin. unfold save_code in Hin.
  apply list_elem_of_In, list_elem_of_lookup in Hin. destruct Hin as (i & Hi).
  destruct (decide (i = pk)) as [->|Hne].
  - pose proof (lookup_lt_Some _ _ _ Hi) as Hlt. rewrite length_insert in Hlt.
    rewrite list_lookup_insert_eq in Hi by trivial. injection Hi as <-.
    unfold matches. simpl. now rewrite andb_false_r.
  - rewrite list_lookup_insert_ne in Hi by congruence.
    apply Hno, list_elem_of_In. eapply list_elem_of_lookup_2. exact Hi.
Qed.

(** A pair (E, C) that no unused row carries stays so until a send-code
    request for [E] draws [C]. *)
Lemma view_keeps_no_match E C r db :
  may_reissue E C r = false ->
  (forall v, In v (codes db) -> matches E C v = false) ->
  forall v, In v (codes (fst (view dj r db))) -> matches E C v = false.
Proof.
  intros Hr Hno.
  destruct (view_codes_cases dj r db)
    as [-> | [(body & env & email & -> & _) | (body & env & email & code & pk & w & _ & _ & ->)]];
    trivial; [|now apply no_match_save].
  simpl. pose proof (send_serializer_pure dj body db) as Hp.
  destruct (SendVerificationCodeSerializer.is_valid dj body db) as [db0 [e|email']] eqn:Hv;
    simpl in Hp; subst db0.
  - now rewrite (send_code_rejected dj _ _ _ _ Hv).
  - rewrite (send_code_accepted dj _ _ _ _ Hv).
    destruct (send_serializer_email _ _ _ Hv) as (raw & Hraw & ->).
    intros v Hin. simpl in Hin. apply in_app_iff in Hin.
    destruct Hin as [Hin | [<- | []]].
    + now apply (no_match_invalidate E C (lower raw) (codes db)).
    + unfold may_reissue in Hr. rewrite Hraw in Hr.
      unfold matches, issued. simpl. rewrite andb_true_r.
      now rewrite andb_comm.
Qed.

Lemma serve_keeps_no_match E C requests : forall db,
  forallb (fun r => negb (may_reissue E C r)) requests = true ->
  (forall v, In v (codes db) -> matches E C v = false) ->
  forall v, In v (codes (serve dj db requests)) -> matches E C v = false.
Proof.
  induction requests as [|r requests IH]; intros db Hall Hno; simpl in *; trivial.
  apply andb_prop in Hall. destruct Hall as [Hr Hall]. apply negb_true_iff in Hr.
  apply IH; trivial. now apply view_keeps_no_match.
Qed.

(** C2.  For a verify-code request that the serializer accepts with email
    [E] and code [C]: the answer is "Invalid verification code." exactly when
    no row matches (E, C, unused), whether the code is wrong or was used
    before, and the store is then unchanged; when rows match, the row chosen
    is a matching row created no earlier than any other; a successful
    verification writes that row back with [is_used] set and changes nothing
    else; through every later request the row stays used and is never chosen
    by a verification again; and, in a store with at most one unused code for
    [E], no later verify-code request for (E, C) succeeds as long as no
    send-code request for [E] draws the code [C] again. *)
Theorem verify_code_single_use (body : dict string) (env : Env) (db : Db) (E C : string) :
  VerifyCodeSerializer.is_valid dj body db = (db, inr (VerifyCodeSerializer.mk E C)) ->
  let out := view dj (verify_code body env) db in
  (snd out = inl NotFound <-> forall v, In v (codes db) -> matches E C v = false)
  /\ (snd out = inl NotFound -> fst out = db)
  /\ (forall v, In v (codes db) -> matches E C v = true ->
        exists pk w,
          latest (matches E C) (codes db) = Some (pk, w)
          /\ codes db !! pk = Some w
          /\ matches E C w = true
          /\ VerificationCode.created_at v <= VerificationCode.created_at w)
  /\ (forall response, snd out = inr response ->
        exists pk w,
          latest (matches E C) (codes db) = Some (pk, w)
          /\ VerificationCode.is_used w = false
          /\ fst out = with_codes (<[pk := VerificationCode.set_is_used true w]> (codes db)) db
          /\ (forall requests,
                exists w', codes (serve dj (fst out) requests) !! pk = Some w'
                           /\ VerificationCode.is_used w' = true
                           /\ VerificationCode.email w' = E
                           /\ VerificationCode.code w' = C)
          /\ (forall requests E' C' pk' w',
                latest (matches E' C') (codes (serve dj (fst out) requests)) = Some (pk', w') ->
                pk' <> pk)
          /\ ((count_unused E (codes db) <= 1)%nat ->
              forall requests body' env',
                forallb (fun r => negb (may_reissue E C r)) requests = true ->
                snd (VerifyCodeSerializer.is_valid dj body' db)
                = inr (VerifyCodeSerializer.mk E C) ->
                view dj (verify_code body' env') (serve dj (fst out) requests)
                = (serve dj (fst out) requests, inl NotFound))).
Proof.
  intros Hv out. subst out. simpl. rewrite (verify_code_accepted dj _ _ _ _ _ Hv).
  split; [|split; [|split]].
  - rewrite <- latest_None.
    destruct (latest (matches E C) (codes db)) as [[pk w]|]; simpl.
    + destruct (VerificationCode.is_valid (now env) w); simpl;
        split; intros H; discriminate.
    + split; trivial.
  - destruct (latest (matches E C) (codes db)) as [[pk w]|]; simpl; trivial.
    destruct (VerificationCode.is_valid (now env) w); simpl; intros H; discriminate.
  - intros v Hin Hm.
    destruct (latest (matches E C) (codes db)) as [[pk w]|] eqn:Hl.
    + exists pk, w. apply latest_Some in Hl. destruct Hl as (Hlk & Hw & Hmax).
      repeat split; auto.
    + rewrite latest_None in Hl. rewrite (Hl v Hin) in Hm. discriminate.
  - intros response Hr.
    destruct (latest (matches E C) (codes db)) as [[pk w]|] eqn:Hl; [|discriminate].
    destruct (VerificationCode.is_valid (now env) w) eqn:Hval; [|discriminate].
    simpl in *. exists pk, w.
    pose proof (latest_Some _ _ _ _ Hl) as (Hlk & Hm & _).
    pose proof (matches_unused _ _ _ Hm) as Hun.
    assert (Hu : VerificationCode.is_used w = false).
    { unfold unused_for in Hun. apply andb_prop in Hun. destruct Hun as [_ Hun].
      now apply negb_true_iff in Hun. }
    assert (Hec : VerificationCode.email w = E /\ VerificationCode.code w = C).
    { unfold matches in Hm. apply andb_prop in Hm. destruct Hm as [Hm _].
      apply andb_prop in Hm. destruct Hm as [He Hc].
      apply String.eqb_eq in He, Hc. auto. }
    assert (Hstays : forall requests,
               exists w', codes (serve dj
                                   (with_codes (save_code pk (VerificationCode.set_is_used true w)
                                                          (codes db)) db)
                                   requests) !! pk = Some w'
                          /\ VerificationCode.is_used w' = true
                          /\ VerificationCode.email w' = E
                          /\ VerificationCode.code w' = C).
    { intros requests.
      destruct (serve_keeps_used dj requests
                  (with_codes (save_code pk (VerificationCode.set_is_used true w) (codes db)) db)
                  pk (VerificationCode.set_is_used true w))
        as (w' & Hw' & Hused & He & Hc); trivial.
      { simpl. unfold save_code. apply list_lookup_insert_eq.
        now apply lookup_lt_Some in Hlk. }
      exists w'. destruct Hec. simpl in *. repeat split; congruence. }
    split; trivial. split; trivial. split; [reflexivity|]. split; [exact Hstays|]. split.
    + intros requests E' C' pk' w' Hl' ->.
      destruct (Hstays requests) as (w'' & Hw'' & Hused & _).
      apply latest_Some in Hl'. destruct Hl' as (Hlk' & Hm' & _).
      assert (w' = w'') by congruence. subst w''.
      apply matches_unused in Hm'. unfold unused_for in Hm'.
      rewrite Hused, andb_false_r in Hm'. discriminate.
    + intros Hone requests body' env' Hnosend Hv'.
      set (db' := serve dj _ requests).
      rewrite (verify_code_accepted dj body' env' db' E C)
        by (eapply verify_serializer_at; eauto).
      assert (Hnone : latest (matches E C) (codes db') = None); [|now rewrite Hnone].
      apply latest_None. subst db'. apply serve_keeps_no_match; trivial.
      simpl. intros v Hin.
      pose proof (count_unused_save E _ _ _ Hlk) as Hs. rewrite Hun in Hs.
      assert (Hz : count_unused E (save_code pk (VerificationCode.set_is_used true w)
                                             (codes db)) = 0%nat) by lia.
      pose proof (count_unused_zero _ _ Hz v Hin) as Hu'.
      destruct (matches E C v) eqn:Hm'; trivial.
      apply matches_unused in Hm'. congruence.
Qed.

(** C3.  In a store with at most one unused code for [E], a verify-code
    request for a matching unused code whose expiry timestamp has passed is
    answered "Verification code has expired. Please request a new one." and
    leaves the store as it was, so the row is still unused. *)
Theorem verify_code_expired (body : dict string) (env : Env) (db : Db) (E C : string)
                            (pk : nat) (v : VerificationCode.t) :
  VerifyCodeSerializer.is_valid dj body db = (db, inr (VerifyCodeSerializer.mk E C)) ->
  (count_unused E (codes db) <= 1)%nat ->
  codes db !! pk = Some v ->
  matches E C v = true ->
  VerificationCode.expires_at v <= now env ->
  view dj (verify_code body env) db = (db, inl Expired)
  /\ codes (fst (view dj (verify_code body env) db)) !! pk = Some v
  /\ VerificationCode.is_used v = false.
Proof.
  intros Hv Hone Hlk Hm Hexp. simpl.
  rewrite (verify_code_accepted dj _ _ _ _ _ Hv).
  rewrite (latest_unique E C _ pk v Hone Hlk Hm).
  assert (Hval : VerificationCode.is_valid (now env) v = false).
  { unfold VerificationCode.is_valid. apply andb_false_iff. right.
    apply Z.ltb_ge. exact Hexp. }
  rewrite Hval. simpl. repeat split; trivial.
  apply matches_unused in Hm. unfold unused_for in Hm.
  apply andb_prop in Hm. destruct Hm as [_ Hm]. now apply negb_true_iff in Hm.
Qed.

End VerifyCode.

(** The same pair (E, C) verifies twice when the second send-code request
    draws the code of the first. *)
Lemma verify_code_twice_on_equal_draws :
  let body := [("email", "a@b.com"); ("code", "12345")] in
  let verified :=
    mkResponse
      (JObj [ ("verified", JBool true);
              ("message", JStr "Code verified successfully. Please set your password.") ])
      HTTP_200_OK in
  let db1 := serve demo empty_db [send_code [("email", "a@b.com")] (env_at 100 "12345" false)] in
  let out1 := view demo (verify_code body (env_at 110 "" false)) db1 in
  let db2 := serve demo (fst out1)
               [send_code [("email", "a@b.com")] (env_at 120 "12345" false)] in
  let out2 := view demo (verify_code body (env_at 130 "" false)) db2 in
  snd out1 = inr verified /\ snd out2 = inr verified.
Proof. split; reflexivity. Qed.

Lemma verify_code_single_use_witness :
  let body := [("email", "A@b.com"); ("code", "11111")] in
  let db := mkDb [issued "a@b.com" (env_at 100 "11111" false)] [] ∅ in
  let later :=
    [ send_code [("email", "a@b.com")] (env_at 300 "22222" false);
      send_code [("email", "c@d.com")] (env_at 310 "11111" false) ] in
  let db' := serve demo (fst (view demo (verify_code body (env_at 200 "" false)) db)) later in
  view demo (verify_code body (env_at 320 "" false)) db' = (db', inl NotFound).
Proof.
  intros body db later db'.
  destruct (verify_code_single_use demo body (env_at 200 "" false) db
              "a@b.com" "11111" eq_refl) as (_ & _ & _ & H).
  destruct (H _ eq_refl) as (pk & w & _ & _ & _ & _ & _ & Hlast).
  apply Hlast.
  - vm_compute. lia.
  - reflexivity.
  - reflexivity.
Defined.

Lemma verify_code_expired_witness :
  view demo (verify_code [("email", "A@b.com"); ("code", "11111")] (env_at 700 "" false))
       (mkDb [issued "a@b.com" (env_at 100 "11111" false)] [] ∅)
  = (mkDb [issued "a@b.com" (env_at 100 "11111" false)] [] ∅, inl Expired).
Proof.
  refine (proj1 (verify_code_expired demo
                   [("email", "A@b.com"); ("code", "11111")] (env_at 700 "" false)
                   (mkDb [issued "a@b.com" (env_at 100 "11111" false)] [] ∅)
                   "a@b.com" "11111" 0 (issued "a@b.com" (env_at 100 "11111" false))
                   eq_refl _ eq_refl eq_refl _)).
  - vm_compute. lia.
  - apply Z.leb_le. reflexivity.
Defined.

(** ** Registration *)

Section Register.
Variable dj : Django.

Lemma name_field raw name :
  name_ok (option_map strip raw) ->
  errors_of name (CharField false true None (Some 150%nat) [] raw) = []
  /\ value_of (CharField false true None (Some 150%nat) [] raw) = option_map strip raw.
Proof.
  intros Hok. destruct raw as [data|]; simpl; [|auto].
  unfold CharField, text_field.
  destruct (String.eqb (strip data) "") eqn:Hs.
  - apply String.eqb_eq in Hs. rewrite Hs. auto.
  - simpl in Hok. destruct Hok as [Hlen Hnul].
    unfold run_validators. simpl. unfold MaxLengthValidator.
    assert (Hlt : (150 <? String.length (strip data))%nat = false)
      by (apply Nat.ltb_ge; lia).
    rewrite Hlt, (nul_validator_plain _ Hnul). simpl. auto.
Qed.

Lemma password_field_valid raw p :
  option_map strip raw = Some p -> plain_text p -> validate_password dj p = [] ->
  CharField true false None None [validate_password dj] raw = Valid p.
Proof.
  intros Hraw [Hne Hnul] Hp. unfold CharField.
  rewrite (text_field_text _ _ _ _ _ Hraw Hne). unfold run_validators. simpl.
  now rewrite Hp, (nul_validator_plain _ Hnul).
Qed.

(** The serializer on a request whose fields pass: only [validate] is left
    to decide. *)
Lemma register_serializer_fields body db e p pc :
  register_fields_ok dj body e p pc ->
  RegisterSerializer.is_valid dj body db
  = (db, if String.eqb p pc then inr (register_attrs body e p pc) else inl PasswordMismatch).
Proof.
  intros (He & Hpe & Hev & Hp & Hpp & Hvp & Hpc & Hppc & Hfn & Hln).
  unfold field_text in *.
  destruct (name_field _ "first_name" Hfn) as (Hf1 & Hf2).
  destruct (name_field _ "last_name" Hln) as (Hl1 & Hl2).
  unfold RegisterSerializer.is_valid.
  rewrite Hf1, Hl1, Hf2, Hl2.
  rewrite (email_field_valid dj _ _ He Hpe Hev), (password_field_valid _ _ Hp Hpp Hvp),
    (char_field_valid _ _ _ _ Hpc Hppc).
  unfold RegisterSerializer.validate, register_attrs, field_text. simpl.
  destruct (String.eqb p pc); reflexivity.
Qed.

Lemma first_used_None email cs :
  first_used email cs = None <-> forall v, In v cs -> used_for email v = false.
Proof.
  unfold first_used. rewrite <- latest_None.
  destruct (latest (used_for email) cs) as [[pk v]|]; split; intros H; trivial; discriminate.
Qed.

(** C4, as the code has it.  For a register request whose fields pass the
    serializer and whose two passwords are equal: if no code of the lowercased
    email is stored used, the answer is "Email not verified. Please verify
    your email first."; if any code of that email is stored used, whatever its
    timestamps, the request passes this gate: it is answered "User with this
    email already exists." when the user exists and with 201 and the new user
    otherwise. *)
Theorem register_email_gate (body : dict string) (env : Env) (db : Db) (e p : string) :
  register_fields_ok dj body e p p ->
  ((forall v, In v (codes db) -> VerificationCode.email v = lower e ->
              VerificationCode.is_used v = false) ->
   view dj (register body env) db = (db, inl EmailNotVerified))
  /\ (forall v, In v (codes db) -> VerificationCode.email v = lower e ->
                VerificationCode.is_used v = true ->
       view dj (register body env) db
       = if user_exists (lower e) (users db)
         then (db, inl UserExists)
         else (with_users (users db ++ [registered dj (register_attrs body e p p) env db]) db,
               inr (mkResponse
                      (JObj [ ("access", JStr (minted_access env));
                              ("refresh", JStr (minted_refresh env));
                              ("user", UserSerializer.data
                                         (registered dj (register_attrs body e p p) env db));
                              ("message", JStr "Registration successful.") ])
                      HTTP_201_CREATED))).
Proof.
  intros Hok.
  pose proof (register_serializer_fields body db e p p Hok) as Hv.
  rewrite String.eqb_refl in Hv. simpl.
  rewrite (register_accepted dj _ _ _ _ Hv). simpl.
  split.
  - intros Hnone.
    assert (Hf : first_used (lower e) (codes db) = None).
    { apply first_used_None. intros v Hin. unfold used_for.
      destruct (String.eqb (VerificationCode.email v) (lower e)) eqn:Heq; trivial.
      apply String.eqb_eq in Heq. now rewrite (Hnone v Hin Heq). }
    now rewrite Hf.
  - intros v Hin Hemail Hused.
    destruct (first_used (lower e) (codes db)) eqn:Hf; trivial.
    rewrite first_used_None in Hf. specialize (Hf v Hin).
    unfold used_for in Hf. rewrite Hemail, String.eqb_refl, Hused in Hf. discriminate.
Qed.

(** C5, as the code has it.  For a register request whose fields pass the
    serializer: if the two passwords, each taken without the white space
    around it, differ, the answer is "Passwords do not match." in every
    store, with or without a used code and with or without the user; if they
    are equal and no code of the email is stored used, the
    answer is "Email not verified. Please verify your email first." whether
    or not the user exists; the answer "User with this email already exists."
    is given only behind both. *)
Theorem register_check_order (body : dict string) (env : Env) (db : Db) (e p pc : string) :
  register_fields_ok dj body e p pc ->
  (p <> pc -> view dj (register body env) db = (db, inl PasswordMismatch))
  /\ (p = pc -> first_used (lower e) (codes db) = None ->
       view dj (register body env) db = (db, inl EmailNotVerified))
  /\ (view dj (register body env) db = (db, inl UserExists) ->
       p = pc /\ first_used (lower e) (codes db) <> None
       /\ user_exists (lower e) (users db) = true).
Proof.
  intros Hok.
  pose proof (register_serializer_fields body db e p pc Hok) as Hv. simpl.
  destruct (String.eqb p pc) eqn:Heq.
  - apply String.eqb_eq in Heq.
    rewrite (register_accepted dj _ _ _ _ Hv). simpl.
    split; [intros Hne; contradiction|]. split.
    + intros _ Hf. now rewrite Hf.
    + destruct (first_used (lower e) (codes db)); [|intros H; discriminate].
      destruct (user_exists (lower e) (users db)); [auto|].
      intros H. discriminate.
  - apply String.eqb_neq in Heq.
    rewrite (register_rejected dj _ _ _ _ Hv).
    split; [reflexivity|]. split; [intros H; contradiction|].
    intros H. discriminate.
Qed.

End Register.

Lemma register_gate_after_passwords :
  first_used "a@b.com" (codes empty_db) = None
  /\ snd (view demo (register [ ("email", "a@b.com"); ("password", "correct-horse1");
                                ("password_confirm", "correct-horse2") ]
                              (env_at 100 "" false)) empty_db)
     = inl PasswordMismatch
  /\ snd (view demo (register [ ("email", "a@b.com"); ("password", "correct-horse1");
                                ("password_confirm", "correct-horse2") ]
                              (env_at 100 "" false)) empty_db)
     <> inl EmailNotVerified.
Proof.
  split; [reflexivity|]. split; [reflexivity|]. vm_compute. discriminate.
Qed.

Lemma register_email_gate_witness :
  view demo (register [ ("email", "A@b.com"); ("password", "correct-horse1");
                        ("password_confirm", "correct-horse1") ]
                      (env_at 100 "" false)) empty_db
  = (empty_db, inl EmailNotVerified).
Proof.
  refine (proj1 (register_email_gate demo
                   [ ("email", "A@b.com"); ("password", "correct-horse1");
                     ("password_confirm", "correct-horse1") ]
                   (env_at 100 "" false) empty_db "A@b.com" "correct-horse1" _) _).
  - unfold register_fields_ok, plain_text.
    repeat split; try reflexivity; try discriminate.
  - intros v [].
Defined.

(** Two inputs whose password differs from the confirmation and that are
    not answered "Passwords do not match.": a password that the validators
    refuse, and a confirmation that differs in the white space around it
    only. *)
Lemma register_weak_password_before_mismatch :
  snd (view demo (register [ ("email", "a@b.com"); ("password", "short1");
                             ("password_confirm", "short2") ]
                           (env_at 100 "" false)) empty_db)
  = inl (ValidationError
           (EDict [("password",
                    EList ["This password is too short. It must contain at least 8 characters."])]))
  /\ snd (view demo (register [ ("email", "a@b.com"); ("password", "short1");
                                ("password_confirm", "short2") ]
                              (env_at 100 "" false)) empty_db)
     <> inl PasswordMismatch
  /\ snd (view demo (register [ ("email", "a@b.com"); ("password", "correct-horse1");
                                ("password_confirm", "correct-horse1 ") ]
                              (env_at 100 "" false)) empty_db)
     = inl EmailNotVerified.
Proof.
  split; [reflexivity|]. split; [|reflexivity]. vm_compute. discriminate.
Qed.

Lemma register_check_order_witness :
  view demo (register [ ("email", "A@b.com"); ("password", "correct-horse1");
                        ("password_confirm", "correct-horse2") ]
                      (env_at 100 "" false)) empty_db
  = (empty_db, inl PasswordMismatch).
Proof.
  refine (proj1 (register_check_order demo
                   [ ("email", "A@b.com"); ("password", "correct-horse1");
                     ("password_confirm", "correct-horse2") ]
                   (env_at 100 "" false) empty_db "A@b.com" "correct-horse1"
                   "correct-horse2" _) _).
  - unfold register_fields_ok, plain_text.
    repeat split; try reflexivity; try discriminate.
  - discriminate.
Defined.

(** ** Mail failure in send-code *)

Section MailFailure.
Variable dj : Django.

Lemma invalidate_unused_marks email cs pk v :
  cs !! pk = Some v -> VerificationCode.email v = email ->
  exists v', invalidate_unused email cs !! pk = Some v'
             /\ VerificationCode.is_used v' = true
             /\ VerificationCode.email v' = email
             /\ VerificationCode.code v' = VerificationCode.code v.
Proof.
  intros Hlk He.
  destruct (invalidate_unused_lookup email _ _ _ Hlk) as (v' & Hv' & Hor).
  exists v'. split; trivial.
  assert (Hin : In v' (invalidate_unused email cs)).
  { apply list_elem_of_In. eapply list_elem_of_lookup_2. exact Hv'. }
  assert (He' : VerificationCode.email v' = email) by (destruct Hor as [-> | ->]; trivial).
  split; [eapply invalidate_unused_used; eauto|].
  split; trivial. destruct Hor as [-> | ->]; reflexivity.
Qed.

(** C6, what the code does.  When the mail transport raises in a send-code
    request that the serializer accepted, the client receives status 400 with
    the machine code [validation_error], not [server_error]. *)
Theorem send_code_mail_failure_response (body : dict string) (env : Env) (db : Db)
                                        (E : string) :
  SendVerificationCodeSerializer.is_valid dj body db = (db, inr E) ->
  send_mail_raises env = true ->
  snd (respond dj (send_code body env) db)
  = Some (validation_error_response "Failed to send email. Please try again.").
Proof.
  intros Hv Hmail. unfold respond. simpl.
  rewrite (send_code_accepted dj _ _ _ _ Hv), Hmail. reflexivity.
Qed.

(** C7.  When the mail transport raises in a send-code request that the
    serializer accepted for [E], the request fails and the store is the one a
    successful request leaves: the new row is stored, unused, behind the old
    rows, and every old row of [E] is stored used. *)
Theorem send_code_mail_failure_keeps_state (body : dict string) (env : Env) (db : Db)
                                           (E : string) :
  SendVerificationCodeSerializer.is_valid dj body db = (db, inr E) ->
  send_mail_raises env = true ->
  let out := view dj (send_code body env) db in
  snd out = inl EmailDeliveryError
  /\ codes (fst out) = (invalidate_unused E (codes db) ++ [issued E env])%list
  /\ codes (fst out) !! length (codes db) = Some (issued E env)
  /\ VerificationCode.is_used (issued E env) = false
  /\ (forall pk v, codes db !! pk = Some v -> VerificationCode.email v = E ->
        exists v', codes (fst out) !! pk = Some v'
                   /\ VerificationCode.is_used v' = true
                   /\ VerificationCode.email v' = E
                   /\ VerificationCode.code v' = VerificationCode.code v)
  /\ (forall env', now env' = now env -> generate_code env' = generate_code env ->
                   send_mail_raises env' = false ->
                   fst (view dj (send_code body env') db) = fst out).
Proof.
  intros Hv Hmail out. subst out. simpl.
  rewrite (send_code_accepted dj _ _ _ _ Hv), Hmail. simpl.
  split; trivial. split; trivial. split.
  { rewrite lookup_app_r; unfold invalidate_unused; rewrite length_map; [|lia].
    now rewrite Nat.sub_diag. }
  split; trivial. split.
  - intros pk v Hlk He.
    destruct (invalidate_unused_marks E _ _ _ Hlk He) as (v' & Hv' & Hrest).
    exists v'. split; trivial. rewrite lookup_app_l; trivial.
    now apply lookup_lt_Some in Hv'.
  - intros env' Hnow Hcode _. rewrite (send_code_accepted dj _ _ _ _ Hv). simpl.
    unfold issued. now rewrite Hnow, Hcode.
Qed.

End MailFailure.

Lemma send_code_mail_failure_response_witness :
  snd (respond demo (send_code [("email", "a@b.com")] (env_at 100 "11111" true)) empty_db)
  = Some (validation_error_response "Failed to send email. Please try again.").
Proof.
  apply (send_code_mail_failure_response demo [("email", "a@b.com")]
           (env_at 100 "11111" true) empty_db "a@b.com"); reflexivity.
Defined.

Lemma send_code_mail_failure_keeps_state_witness :
  codes (fst (view demo (send_code [("email", "a@b.com")] (env_at 100 "11111" true))
                   empty_db))
  = [issued "a@b.com" (env_at 100 "11111" true)].
Proof.
  exact (proj1 (proj2 (send_code_mail_failure_keeps_state demo [("email", "a@b.com")]
                         (env_at 100 "11111" true) empty_db "a@b.com" eq_refl eq_refl))).
Defined.

(** ** Login *)

Section Login.
Variable dj : Django.

(** C8, what the code does.  For a login request whose fields pass the
    serializer the checks run in the order: credentials, [is_active],
    [is_verified]; each failure reaches the client with status 400 and the
    machine code [validation_error], told apart by its message only, so an
    unverified user receives [validation_error], not [email_not_verified]. *)
Theorem login_failures (body : dict string) (env : Env) (db : Db) (e p : string) :
  login_fields_ok dj body e p ->
  respond dj (login body env) db
  = (db,
     match authenticate dj (users db) (lower e) p with
     | None => Some (validation_error_response "Invalid email or password.")
     | Some user =>
         if negb (User.is_active user)
         then Some (validation_error_response "User account is disabled.")
         else if negb (User.is_verified user)
         then Some (validation_error_response "Email is not verified.")
         else Some (mkResponse
                      (JObj [ ("access", JStr (minted_access env));
                              ("refresh", JStr (minted_refresh env));
                              ("user", UserSerializer.data user);
                              ("message", JStr "Login successful.") ])
                      HTTP_200_OK)
     end).
Proof.
  intros (He & Hpe & Hev & Hp & Hpp).
  unfold respond. simpl.
  unfold LoginView.post, LoginSerializer.is_valid, LoginSerializer.validate.
  unfold field_text in *.
  rewrite (email_field_valid dj _ _ He Hpe Hev), (char_field_valid _ _ _ _ Hp Hpp).
  destruct Hpe as [Hne _]. destruct Hpp as [Hnp _].
  simpl. unfold_view.
  rewrite (lower_empty _ Hne), (eqb_empty_false _ Hnp). simpl.
  destruct (authenticate dj (users db) (lower e) p) as [user|]; [|reflexivity].
  destruct (User.is_active user); [|reflexivity]. simpl.
  destruct (User.is_verified user); reflexivity.
Qed.

End Login.

Lemma login_failures_witness :
  snd (respond demo (login [("email", "A@b.com"); ("password", "correct-horse1")]
                           (env_at 100 "" false))
               (mkDb [] [User.mk 1 "a@b.com" "correct-horse1" "" "" false true 0] ∅))
  = Some (validation_error_response "Email is not verified.").
Proof.
  rewrite (login_failures demo [("email", "A@b.com"); ("password", "correct-horse1")]
             (env_at 100 "" false)
             (mkDb [] [User.mk 1 "a@b.com" "correct-horse1" "" "" false true 0] ∅)
             "A@b.com" "correct-horse1").
  - reflexivity.
  - unfold login_fields_ok, plain_text.
    repeat split; try reflexivity; try discriminate.
Defined.

(** ** Refresh tokens *)

Section Tokens.
Variable dj : Django.

Lemma verify_cases clock token db :
  (exists text, RefreshToken.verify dj clock token db = (db, inl (RefreshToken.TokenError text)))
  \/ (exists payload,
        RefreshToken.verify dj clock token db = (db, inr payload)
        /\ decode dj token = Some payload
        /\ jti payload ∉ blacklist db).
Proof.
  unfold RefreshToken.verify.
  destruct (decode dj token) as [payload|]; [|left; eexists; reflexivity].
  destruct (exp payload <=? clock); [left; eexists; reflexivity|].
  destruct (negb _); [left; eexists; reflexivity|].
  unfold_view. destruct (bool_decide (jti payload ∈ blacklist db)) eqn:Hb.
  - left. eexists. reflexivity.
  - right. exists payload. repeat split; trivial.
    now apply bool_decide_eq_false in Hb.
Qed.

Lemma verify_blacklisted clock token payload db :
  decode dj token = Some payload -> jti payload ∈ blacklist db ->
  exists text, RefreshToken.verify dj clock token db = (db, inl (RefreshToken.TokenError text)).
Proof.
  intros Hd Hin.
  destruct (verify_cases clock token db) as [H | (payload' & _ & Hd' & Hnot)]; trivial.
  rewrite Hd in Hd'. injection Hd' as <-. contradiction.
Qed.

Lemma refresh_field body token db :
  field_text "refresh" body = Some token ->
  LogoutSerializer.is_valid body db
  = (db, if String.eqb token ""
         then inl (ValidationError (EDict [("refresh", EList ["This field may not be blank."])]))
         else if has_nul token
         then inl (ValidationError
                     (EDict [("refresh", EList ["Null characters are not allowed."])]))
         else inr token).
Proof.
  unfold field_text, LogoutSerializer.is_valid.
  destruct (dict_get "refresh" body) as [raw|]; [|discriminate].
  intros [= <-]. simpl. destruct (String.eqb (strip raw) ""); [reflexivity|].
  unfold run_validators, ProhibitNullCharactersValidator. simpl.
  destruct (has_nul (strip raw)); reflexivity.
Qed.

Lemma refresh_field_missing body db :
  field_text "refresh" body = None ->
  LogoutSerializer.is_valid body db
  = (db, inl (ValidationError (EDict [("refresh", EList ["This field is required."])]))).
Proof.
  unfold field_text, LogoutSerializer.is_valid.
  destruct (dict_get "refresh" body) as [raw|]; [discriminate|]. reflexivity.
Qed.

(** logout and token/refresh on a request that carries a plain token. *)
Lemma logout_accepted body env db token :
  field_text "refresh" body = Some token -> plain_text token ->
  LogoutView.post dj body env db
  = match RefreshToken.verify dj (now env) token db with
    | (db', inr payload) =>
        (with_blacklist ({[ jti payload ]} ∪ blacklist db') db',
         inr (mkResponse (JObj [("message", JStr "Logout successful.")]) HTTP_200_OK))
    | (db', inl _) => (db', inl InvalidToken)
    end.
Proof.
  intros Hb [Hne Hnul]. unfold LogoutView.post. unfold bind at 1.
  rewrite (refresh_field _ _ _ Hb), (eqb_empty_false _ Hne), Hnul.
  rewrite (eqb_empty_false _ Hne).
  unfold try_except, RefreshToken.blacklist_token. unfold bind at 1.
  destruct (RefreshToken.verify dj (now env) token db) as [db' [e|payload]]; reflexivity.
Qed.

Lemma token_refresh_accepted body env db token :
  field_text "refresh" body = Some token -> plain_text token ->
  TokenRefreshView.post dj body env db
  = match RefreshToken.verify dj (now env) token db with
    | (db', inr payload) =>
        (with_blacklist ({[ jti payload ]} ∪ blacklist db') db',
         inr (mkResponse
                (JObj [ ("access", JStr (minted_access env));
                        ("refresh", JStr (minted_refresh env)) ])
                HTTP_200_OK))
    | (db', inl e) =>
        if TokenRefreshView.is_TokenError e
        then (db', inl (TokenRefreshView.InvalidToken "Token is invalid or expired"))
        else (db', inl e)
    end.
Proof.
  intros Hb [Hne Hnul]. unfold TokenRefreshView.post, TokenRefreshView.is_valid.
  unfold bind at 1.
  rewrite (refresh_field _ _ _ Hb), (eqb_empty_false _ Hne), Hnul.
  unfold try_except, RefreshToken.blacklist_token. unfold bind at 1.
  destruct (RefreshToken.verify dj (now env) token db) as [db' [e|payload]];
    [|reflexivity].
  destruct (TokenRefreshView.is_TokenError e); reflexivity.
Qed.

(** A request whose token is missing, blank or holds a null character is
    answered by the serializer and leaves the store as it is. *)
Lemma logout_refused body env db :
  (forall token, field_text "refresh" body = Some token -> ~ plain_text token) ->
  exists errors,
    LogoutView.post dj body env db
    = (db, inl (ValidationError (EDict [("refresh", EList errors)])))
    /\ TokenRefreshView.post dj body env db
       = (db, inl (ValidationError (EDict [("refresh", EList errors)]))).
Proof.
  intros Hbad.
  assert (Hv : exists errors,
             LogoutSerializer.is_valid body db
             = (db, inl (ValidationError (EDict [("refresh", EList errors)])))).
  { destruct (field_text "refresh" body) as [token|] eqn:Hb.
    - rewrite (refresh_field _ _ _ Hb).
      destruct (String.eqb token "") eqn:He; [eexists; reflexivity|].
      destruct (has_nul token) eqn:Hn; [eexists; reflexivity|].
      exfalso. apply (Hbad token eq_refl). split; trivial. now apply String.eqb_neq.
    - rewrite (refresh_field_missing _ _ Hb). eexists; reflexivity. }
  destruct Hv as (errors & Hv). exists errors. split.
  - unfold LogoutView.post. unfold bind at 1. now rewrite Hv.
  - unfold TokenRefreshView.post, TokenRefreshView.is_valid. unfold bind at 1.
    now rewrite Hv.
Qed.

Lemma plain_text_dec token : plain_text token \/ ~ plain_text token.
Proof.
  unfold plain_text. destruct (String.eqb token "") eqn:He.
  - apply String.eqb_eq in He. right. tauto.
  - apply String.eqb_neq in He. destruct (has_nul token); [right|left]; intuition congruence.
Qed.

Lemma refresh_token_cases body :
  (exists token, field_text "refresh" body = Some token /\ plain_text token)
  \/ (forall token, field_text "refresh" body = Some token -> ~ plain_text token).
Proof.
  destruct (field_text "refresh" body) as [token|]; [|right; discriminate].
  destruct (plain_text_dec token) as [H|H]; [left; eauto|].
  right. now intros ? [= <-].
Qed.

Lemma logout_cases body env db token :
  field_text "refresh" body = Some token -> plain_text token ->
  view dj (logout body env) db = (db, inl InvalidToken)
  \/ (exists payload,
        decode dj token = Some payload
        /\ (jti payload ∉ blacklist db)
        /\ view dj (logout body env) db
           = (with_blacklist ({[ jti payload ]} ∪ blacklist db) db,
              inr (mkResponse (JObj [("message", JStr "Logout successful.")]) HTTP_200_OK))).
Proof.
  intros Hb Hne. simpl. rewrite (logout_accepted _ _ _ _ Hb Hne).
  destruct (verify_cases (now env) token db) as [(text & ->) | (payload & -> & Hd & Hnot)].
  - left. reflexivity.
  - right. exists payload. repeat split; trivial.
Qed.

Lemma token_refresh_cases body env db token :
  field_text "refresh" body = Some token -> plain_text token ->
  view dj (token_refresh body env) db
  = (db, inl (TokenRefreshView.InvalidToken "Token is invalid or expired"))
  \/ (exists payload,
        decode dj token = Some payload
        /\ (jti payload ∉ blacklist db)
        /\ view dj (token_refresh body env) db
           = (with_blacklist ({[ jti payload ]} ∪ blacklist db) db,
              inr (mkResponse
                     (JObj [ ("access", JStr (minted_access env));
                             ("refresh", JStr (minted_refresh env)) ])
                     HTTP_200_OK))).
Proof.
  intros Hb Hne. simpl. rewrite (token_refresh_accepted _ _ _ _ Hb Hne).
  destruct (verify_cases (now env) token db) as [(text & ->) | (payload & -> & Hd & Hnot)].
  - left. reflexivity.
  - right. exists payload. repeat split; trivial.
Qed.

(** The blacklist only grows. *)
Lemma view_blacklist_grows r db :
  blacklist db ⊆ blacklist (fst (view dj r db)).
Proof.
  destruct r as [body|body env|body env|body env|body env|body env|body env|user]; simpl.
  - unfold CheckEmailView.post, CheckEmailSerializer.is_valid. unfold_view.
    now destruct (value_of _).
  - unfold LoginView.post, LoginSerializer.is_valid. unfold_view.
    destruct (value_of _); [destruct (value_of _)|]; trivial.
    now destruct (LoginSerializer.validate _ _ _ _).
  - pose proof (send_serializer_pure dj body db) as Hp.
    destruct (SendVerificationCodeSerializer.is_valid dj body db) as [db0 [e|email]] eqn:Hv;
      simpl in Hp; subst db0.
    + now rewrite (send_code_rejected dj _ _ _ _ Hv).
    + now rewrite (send_code_accepted dj _ _ _ _ Hv).
  - pose proof (verify_serializer_pure dj body db) as Hp.
    destruct (VerifyCodeSerializer.is_valid dj body db) as [db0 [e|[email code]]] eqn:Hv;
      simpl in Hp; subst db0.
    + now rewrite (verify_code_rejected dj _ _ _ _ Hv).
    + rewrite (verify_code_accepted dj _ _ _ _ _ Hv).
      destruct (latest _ _) as [[pk v]|]; trivial.
      now destruct (VerificationCode.is_valid _ _).
  - pose proof (register_serializer_pure dj body db) as Hp.
    destruct (RegisterSerializer.is_valid dj body db) as [db0 [e|attrs]] eqn:Hv;
      simpl in Hp; subst db0.
    + now rewrite (register_rejected dj _ _ _ _ Hv).
    + rewrite (register_accepted dj _ _ _ _ Hv).
      destruct (first_used _ _); trivial. now destruct (user_exists _ _).
  - destruct (refresh_token_cases body) as [(token & Hb & Hp) | Hbad].
    + destruct (logout_cases body env db token Hb Hp) as [H | (payload & _ & _ & H)];
        simpl in H; rewrite H; simpl; set_solver.
    + destruct (logout_refused body env db Hbad) as (errors & -> & _). reflexivity.
  - destruct (refresh_token_cases body) as [(token & Hb & Hp) | Hbad].
    + destruct (token_refresh_cases body env db token Hb Hp)
        as [H | (payload & _ & _ & H)];
        simpl in H; rewrite H; simpl; set_solver.
    + destruct (logout_refused body env db Hbad) as (errors & _ & ->). reflexivity.
  - reflexivity.
Qed.

Lemma serve_blacklist_grows requests : forall db,
  blacklist db ⊆ blacklist (serve dj db requests).
Proof.
  induction requests as [|r requests IH]; intros db; simpl; [set_solver|].
  etransitivity; [apply view_blacklist_grows | apply IH].
Qed.

(** C9.  When a logout or a refresh exchange succeeds for a refresh token,
    the token's [jti] is in the blacklist of the store it leaves; from then
    on, after any further requests, every refresh attempt with that token
    fails with InvalidToken and leaves the store as it is.  A logout with a
    token that does not decode, or whose [jti] is blacklisted, fails with
    "Invalid token or token already blacklisted.".  The token is the text
    the refresh field hands on: the request's value without the white space
    around it. *)
Theorem revoked_refresh_token_stays_dead (token : string) (body : dict string) :
  field_text "refresh" body = Some token ->
  (forall db env db' response,
     view dj (logout body env) db = (db', inr response)
     \/ view dj (token_refresh body env) db = (db', inr response) ->
     exists payload,
       decode dj token = Some payload
       /\ jti payload ∈ blacklist db'
       /\ forall requests body' env',
            field_text "refresh" body' = Some token ->
            view dj (token_refresh body' env') (serve dj db' requests)
            = (serve dj db' requests,
               inl (TokenRefreshView.InvalidToken "Token is invalid or expired")))
  /\ (forall db env,
        token <> "" -> has_nul token = false ->
        decode dj token = None
        \/ (exists payload, decode dj token = Some payload /\ jti payload ∈ blacklist db) ->
        view dj (logout body env) db = (db, inl InvalidToken)).
Proof.
  intros Hb. split.
  - intros db env db' response Hok.
    assert (Hne : plain_text token).
    { destruct (plain_text_dec token) as [Hp|Hp]; trivial. exfalso.
      assert (Hbad : forall t, field_text "refresh" body = Some t -> ~ plain_text t).
      { intros t Ht. rewrite Hb in Ht. now injection Ht as <-. }
      destruct (logout_refused body env db Hbad) as (errors & Hl & Hr).
      destruct Hok as [H | H]; simpl in H; congruence. }
    assert (Hlisted : exists payload,
               decode dj token = Some payload /\ jti payload ∈ blacklist db').
    { destruct Hok as [H | H].
      - destruct (logout_cases body env db token Hb Hne)
          as [H' | (payload & Hd & _ & H')]; rewrite H' in H; [discriminate|].
        injection H as <- _. exists payload. split; trivial. simpl. set_solver.
      - destruct (token_refresh_cases body env db token Hb Hne)
          as [H' | (payload & Hd & _ & H')]; rewrite H' in H; [discriminate|].
        injection H as <- _. exists payload. split; trivial. simpl. set_solver. }
    destruct Hlisted as (payload & Hd & Hin).
    exists payload. split; trivial. split; trivial.
    intros requests body' env' Hb'.
    destruct (token_refresh_cases body' env' (serve dj db' requests) token Hb' Hne)
      as [H | (payload' & Hd' & Hnot & _)]; trivial.
    exfalso. apply Hnot.
    assert (payload' = payload) by congruence. subst payload'.
    now apply (serve_blacklist_grows requests db').
  - intros db env Hne Hnul Hbad.
    destruct (logout_cases body env db token Hb (conj Hne Hnul))
      as [H | (payload & Hd & Hnot & _)]; trivial.
    exfalso. destruct Hbad as [Hnone | (payload' & Hd' & Hin)]; [congruence|].
    assert (payload' = payload) by congruence. subst payload'. contradiction.
Qed.

End Tokens.

Lemma revoked_refresh_token_stays_dead_witness :
  view demo (logout [("refresh", " garbage ")] (env_at 100 "" false)) empty_db
  = (empty_db, inl InvalidToken).
Proof.
  refine (proj2 (revoked_refresh_token_stays_dead demo "garbage" [("refresh", " garbage ")]
                   eq_refl) empty_db (env_at 100 "" false) _ _ _).
  - discriminate.
  - reflexivity.
  - left. reflexivity.
Defined.

(** ** The code field of verify-code *)

Section CodeField.
Variable dj : Django.

Lemma code_field_rejects body :
  code_length_5 body = false
  \/ (exists c, field_text "code" body = Some c /\ has_nul c = true) ->
  exists errors, VerifyCodeSerializer.code_field (dict_get "code" body) = Invalid errors.
Proof.
  unfold code_length_5, field_text, VerifyCodeSerializer.code_field, CharField, text_field.
  destruct (dict_get "code" body) as [raw|]; simpl;
    [|intros _; eexists; reflexivity].
  intros Hbad. destruct (String.eqb (strip raw) ""); [eexists; reflexivity|].
  unfold run_validators. simpl.
  unfold MaxLengthValidator, MinLengthValidator, ProhibitNullCharactersValidator.
  destruct (5 <? String.length (strip raw))%nat eqn:Hmax; [eexists; reflexivity|].
  destruct (String.length (strip raw) <? 5)%nat eqn:Hmin; [eexists; reflexivity|].
  destruct (has_nul (strip raw)) eqn:Hnul; [eexists; reflexivity|].
  apply Nat.ltb_ge in Hmax, Hmin. exfalso.
  destruct Hbad as [Hlen | (c & [= <-] & Hc)]; [|congruence].
  apply Nat.eqb_neq in Hlen. lia.
Qed.

Lemma code_field_accepts raw c :
  option_map strip raw = Some c -> String.length c = 5%nat -> has_nul c = false ->
  VerifyCodeSerializer.code_field raw = Valid c.
Proof.
  intros Hraw Hlen Hnul. unfold VerifyCodeSerializer.code_field, CharField.
  rewrite (text_field_text _ _ _ _ _ Hraw) by (intros ->; discriminate).
  unfold run_validators. simpl.
  unfold MaxLengthValidator, MinLengthValidator, ProhibitNullCharactersValidator.
  rewrite Hlen, Hnul. reflexivity.
Qed.

Lemma code_field_cases raw :
  (exists errors, VerifyCodeSerializer.code_field raw = Invalid errors)
  \/ (exists c, VerifyCodeSerializer.code_field raw = Valid c
                /\ option_map strip raw = Some c
                /\ String.length c = 5%nat /\ has_nul c = false).
Proof.
  unfold VerifyCodeSerializer.code_field, CharField, text_field.
  destruct raw as [data|]; [|left; eauto]. simpl.
  destruct (String.eqb (strip data) ""); [left; eauto|].
  unfold run_validators. simpl.
  unfold MaxLengthValidator, MinLengthValidator, ProhibitNullCharactersValidator.
  destruct (5 <? String.length (strip data))%nat eqn:Hmax; [left; eauto|].
  destruct (String.length (strip data) <? 5)%nat eqn:Hmin; [left; eauto|].
  destruct (has_nul (strip data)) eqn:Hnul; [left; eauto|].
  apply Nat.ltb_ge in Hmax, Hmin. right. exists (strip data). repeat split; trivial. lia.
Qed.

Lemma not_digits_no_match email c cs :
  isdigit c = false ->
  (forall v, In v cs -> isdigit (VerificationCode.code v) = true) ->
  forall v, In v cs -> matches email c v = false.
Proof.
  intros Hc Hall v Hin. unfold matches.
  destruct (String.eqb (VerificationCode.code v) c) eqn:Heq.
  - apply String.eqb_eq in Heq. rewrite <- Heq, (Hall v Hin) in Hc. discriminate.
  - now rewrite andb_false_r.
Qed.

(** C10.  The code field is measured after the white space around it is
    taken off.  A verify-code request whose code field is absent, is not
    exactly 5 characters long once stripped, or holds a null character, is
    rejected by the serializer: in every store the view raises the same
    [ValidationError] with an entry for the field, leaves the store as it
    is, and the client receives status 400 with the machine code
    [validation_error].  A code whose stripped text has 5 characters, none of
    them null, passes the serializer whatever its characters, and it is the
    stripped text that is looked up; the request is then answered "Invalid
    verification code." when no row matches, which is the case for a code
    that is not numeric in a table of numeric codes. *)
Theorem verify_code_length_boundary (body : dict string) (env : Env) (db : Db) :
  (code_length_5 body = false
   \/ (exists c, field_text "code" body = Some c /\ has_nul c = true) ->
   exists errors code_errors message,
     dict_get "code" errors = Some (EList code_errors)
     /\ (forall db', view dj (verify_code body env) db'
                     = (db', inl (ValidationError (EDict errors))))
     /\ snd (respond dj (verify_code body env) db)
        = Some (validation_error_response message))
  /\ (forall e c,
        field_text "email" body = Some e -> plain_text e -> EmailValidator dj e = true ->
        field_text "code" body = Some c -> String.length c = 5%nat -> has_nul c = false ->
        VerifyCodeSerializer.is_valid dj body db
        = (db, inr (VerifyCodeSerializer.mk (lower e) c))
        /\ ((forall v, In v (codes db) -> matches (lower e) c v = false) ->
            respond dj (verify_code body env) db
            = (db, Some (validation_error_response "Invalid verification code.")))
        /\ (isdigit c = false ->
            (forall v, In v (codes db) -> isdigit (VerificationCode.code v) = true) ->
            respond dj (verify_code body env) db
            = (db, Some (validation_error_response "Invalid verification code.")))).
Proof.
  split.
  - intros Hlen. destruct (code_field_rejects body Hlen) as (code_errors & Hcode).
    set (email := then_validate VerifyCodeSerializer.validate_email
                    (EmailField dj (dict_get "email" body))).
    exists (errors_of "email" email ++ [("code", EList code_errors)])%list, code_errors.
    assert (Hview : forall db', view dj (verify_code body env) db'
                    = (db', inl (ValidationError
                                   (EDict (errors_of "email" email
                                           ++ [("code", EList code_errors)])%list)))).
    { intros db'. simpl. apply verify_code_rejected.
      unfold VerifyCodeSerializer.is_valid. fold email. rewrite Hcode. simpl.
      destruct (value_of email); reflexivity. }
    destruct email as [|errors|value] eqn:Hemail; simpl.
    + eexists. split; [reflexivity|]. split; [exact Hview|].
      unfold respond. rewrite Hview. reflexivity.
    + eexists. split; [reflexivity|]. split; [exact Hview|].
      unfold respond. rewrite Hview. reflexivity.
    + eexists. split; [reflexivity|]. split; [exact Hview|].
      unfold respond. rewrite Hview. reflexivity.
  - intros e c He Hpe Hev Hc Hlen Hnul.
    assert (Hv : VerifyCodeSerializer.is_valid dj body db
                 = (db, inr (VerifyCodeSerializer.mk (lower e) c))).
    { unfold VerifyCodeSerializer.is_valid. unfold field_text in He, Hc.
      rewrite (code_field_accepts _ c Hc Hlen Hnul), (email_field_valid dj _ e He Hpe Hev).
      reflexivity. }
    assert (Hnone : (forall v, In v (codes db) -> matches (lower e) c v = false) ->
                    respond dj (verify_code body env) db
                    = (db, Some (validation_error_response "Invalid verification code."))).
    { intros Hall. unfold respond. simpl.
      rewrite (verify_code_accepted dj _ _ _ _ _ Hv).
      apply latest_None in Hall. rewrite Hall. reflexivity. }
    split; trivial. split; trivial.
    intros Hnd Hdigits. apply Hnone. now apply not_digits_no_match.
Qed.

End CodeField.

Lemma verify_code_length_boundary_witness :
  respond demo (verify_code [("email", "a@b.com"); ("code", "12a45")] (env_at 200 "" false))
          (mkDb [issued "a@b.com" (env_at 100 "12345" false)] [] ∅)
  = (mkDb [issued "a@b.com" (env_at 100 "12345" false)] [] ∅,
     Some (validation_error_response "Invalid verification code.")).
Proof.
  refine (proj2 (proj2 (proj2 (verify_code_length_boundary demo
            [("email", "a@b.com"); ("code", "12a45")] (env_at 200 "" false)
            (mkDb [issued "a@b.com" (env_at 100 "12345" false)] [] ∅))
          "a@b.com" "12a45" eq_refl _ eq_refl eq_refl eq_refl eq_refl)) eq_refl _).
  - split; [discriminate | reflexivity].
  - intros v [<- | []]. reflexivity.
Defined.

(** A code field of 6 characters passes and verifies when 5 are left once it
    is stripped, and one of 5 characters is refused when 4 are left. *)
Lemma verify_code_padded_codes :
  let db := mkDb [issued "a@b.com" (env_at 100 "12345" false)] [] ∅ in
  String.length " 12345" = 6%nat
  /\ respond demo (verify_code [("email", "a@b.com"); ("code", " 12345")]
                               (env_at 200 "" false)) db
     = (mkDb [VerificationCode.set_is_used true (issued "a@b.com" (env_at 100 "12345" false))]
             [] ∅,
        Some (mkResponse
                (JObj [ ("verified", JBool true);
                        ("message",
                         JStr "Code verified successfully. Please set your password.") ])
                HTTP_200_OK))
  /\ String.length " 1234" = 5%nat
  /\ view demo (verify_code [("email", "a@b.com"); ("code", " 1234")]
                            (env_at 200 "" false)) db
     = (db, inl (ValidationError
                   (EDict [("code",
                            EList ["Ensure this field has at least 5 characters."])]))).
Proof. repeat split. Qed.

(** * Further properties of the views *)

(** ** The exception handler *)



Lemma handler_validation_error e :
  is_validation_error e ->
  exists message, custom_exception_handler e = Some (validation_error_response message).
Proof.
  intros (k & v & d & ->). unfold custom_exception_handler.
  cbn [exception_handler as_api_exception ValidationError data status class_name].
  destruct (dict_get "detail" ((k, v) :: d)); eexists; reflexivity.
Qed.

(** ** One request, one effect *)

Section Effects.
Variable dj : Django.

Lemma required_field_cases allow_blank min_length max_length validators raw :
  (exists errors,
     CharField true allow_blank min_length max_length validators raw = Invalid errors)
  \/ (exists value,
        CharField true allow_blank min_length max_length validators raw = Valid value).
Proof.
  unfold CharField, text_field. destruct raw as [value|]; [|left; eauto].
  destruct (String.eqb (strip value) "").
  - destruct allow_blank; [right | left]; eauto.
  - unfold run_validators. destruct (concat _); [right | left]; eauto.
Qed.

Lemma optional_field_cases allow_blank min_length max_length validators raw name :
  (exists errors,
     CharField false allow_blank min_length max_length validators raw = Invalid errors)
  \/ errors_of name (CharField false allow_blank min_length max_length validators raw) = [].
Proof.
  unfold CharField, text_field. destruct raw as [value|]; [|now right].
  destruct (String.eqb (strip value) "").
  - destruct allow_blank; [right | left]; eauto.
  - unfold run_validators. destruct (concat _); [right | left]; eauto.
Qed.

Lemma email_field_cases raw :
  (exists errors, EmailField dj raw = Invalid errors)
  \/ (exists value, EmailField dj raw = Valid value /\ option_map strip raw = Some value
                    /\ plain_text value /\ EmailValidator dj value = true).
Proof.
  unfold EmailField, text_field, plain_text. destruct raw as [data|]; [|left; eauto].
  simpl. destruct (String.eqb (strip data) "") eqn:Hne; [left; eauto|].
  apply String.eqb_neq in Hne.
  unfold run_validators, ProhibitNullCharactersValidator. simpl.
  destruct (has_nul (strip data)) eqn:Hnul; [left; eauto|].
  destruct (EmailValidator dj (strip data)) eqn:Hv; simpl; [right | left]; eauto 10.
Qed.

Lemma password_field_cases raw :
  (exists errors,
     CharField true false None None [validate_password dj] raw = Invalid errors)
  \/ (exists p,
        CharField true false None None [validate_password dj] raw = Valid p
        /\ option_map strip raw = Some p /\ validate_password dj p = []).
Proof.
  unfold CharField, text_field. destruct raw as [data|]; [|left; eauto].
  simpl. destruct (String.eqb (strip data) ""); [left; eauto|].
  unfold run_validators, length_validators, ProhibitNullCharactersValidator.
  cbn [app map concat]. rewrite app_nil_r.
  destruct (validate_password dj (strip data)) eqn:Hp; [|left; eauto].
  destruct (has_nul (strip data)); [left | right]; eauto.
Qed.

Lemma register_serializer_cases body db :
  (exists e, RegisterSerializer.is_valid dj body db = (db, inl e) /\ is_validation_error e)
  \/ (exists attrs raw,
        RegisterSerializer.is_valid dj body db = (db, inr attrs)
        /\ field_text "email" body = Some raw
        /\ plain_text raw /\ EmailValidator dj raw = true
        /\ RegisterSerializer.email attrs = lower raw
        /\ field_text "password" body = Some (RegisterSerializer.password attrs)
        /\ validate_password dj (RegisterSerializer.password attrs) = []
        /\ RegisterSerializer.password_confirm attrs = RegisterSerializer.password attrs).
Proof.
  unfold RegisterSerializer.is_valid, field_text.
  destruct (email_field_cases (dict_get "email" body))
    as [(ee & ->) | (raw & -> & Hraw & Hne & Hv)];
    [left; eexists; split; [reflexivity | repeat eexists]|].
  cbn [then_validate RegisterSerializer.validate_email errors_of value_of app].
  destruct (password_field_cases (dict_get "password" body))
    as [(pe & ->) | (p & -> & Hpraw & Hp)];
    [left; eexists; split; [reflexivity | repeat eexists]|].
  cbn [errors_of value_of app].
  destruct (required_field_cases false None None [] (dict_get "password_confirm" body))
    as [(ce & ->) | (pc & ->)];
    [left; eexists; split; [reflexivity | repeat eexists]|].
  cbn [errors_of value_of app].
  destruct (optional_field_cases true None (Some 150%nat) []
              (dict_get "first_name" body) "first_name") as [(fe & ->) | ->];
    [left; eexists; split; [reflexivity | repeat eexists]|].
  cbn [errors_of value_of app].
  destruct (optional_field_cases true None (Some 150%nat) []
              (dict_get "last_name" body) "last_name") as [(le & ->) | ->];
    [left; eexists; split; [reflexivity | repeat eexists]|].
  unfold RegisterSerializer.validate. simpl.
  destruct (String.eqb p pc) eqn:Heq; simpl.
  - apply String.eqb_eq in Heq. subst pc.
    right. eexists. exists raw. split; [reflexivity|]. simpl. auto 10.
  - left. eexists. split; [reflexivity | repeat eexists].
Qed.

Lemma check_serializer_cases body db :
  (exists e, CheckEmailSerializer.is_valid dj body db = (db, inl e) /\ is_validation_error e)
  \/ (exists raw,
        CheckEmailSerializer.is_valid dj body db = (db, inr (lower raw))
        /\ field_text "email" body = Some raw
        /\ plain_text raw /\ EmailValidator dj raw = true).
Proof.
  unfold CheckEmailSerializer.is_valid, field_text.
  destruct (email_field_cases (dict_get "email" body))
    as [(ee & ->) | (raw & -> & Hraw & Hne & Hv)].
  - left. eexists. split; [reflexivity | repeat eexists].
  - right. exists raw. auto.
Qed.

Lemma send_serializer_cases body db :
  (exists e, SendVerificationCodeSerializer.is_valid dj body db = (db, inl e)
             /\ is_validation_error e)
  \/ (exists raw,
        SendVerificationCodeSerializer.is_valid dj body db = (db, inr (lower raw))
        /\ field_text "email" body = Some raw
        /\ plain_text raw /\ EmailValidator dj raw = true
        /\ user_exists (lower raw) (users db) = false).
Proof.
  unfold SendVerificationCodeSerializer.is_valid,
    SendVerificationCodeSerializer.validate_email, field_text. unfold_view.
  destruct (email_field_cases (dict_get "email" body))
    as [(ee & ->) | (raw & -> & Hraw & Hne & Hv)].
  - left. eexists. split; [reflexivity | repeat eexists].
  - simpl. destruct (user_exists (lower raw) (users db)) eqn:Hu; simpl.
    + left. eexists. split; [reflexivity | repeat eexists].
    + right. exists raw. auto.
Qed.

Lemma verify_serializer_cases body db :
  (exists e, VerifyCodeSerializer.is_valid dj body db = (db, inl e) /\ is_validation_error e)
  \/ (exists raw c,
        VerifyCodeSerializer.is_valid dj body db
        = (db, inr (VerifyCodeSerializer.mk (lower raw) c))
        /\ field_text "email" body = Some raw
        /\ plain_text raw /\ EmailValidator dj raw = true
        /\ field_text "code" body = Some c
        /\ String.length c = 5%nat /\ has_nul c = false).
Proof.
  unfold VerifyCodeSerializer.is_valid, field_text.
  destruct (email_field_cases (dict_get "email" body))
    as [(ee & ->) | (raw & -> & Hraw & Hne & Hv)].
  - left. eexists. split; [reflexivity | repeat eexists].
  - cbn [then_validate VerifyCodeSerializer.validate_email errors_of value_of app].
    destruct (code_field_cases (dict_get "code" body))
      as [(ce & ->) | (c & -> & Hc & Hlen & Hnul)].
    + left. eexists. split; [reflexivity | repeat eexists].
    + right. exists raw, c. auto 10.
Qed.

Lemma login_serializer_cases body db :
  (exists e, LoginSerializer.is_valid dj body db = (db, inl e) /\ is_validation_error e)
  \/ (exists attrs, LoginSerializer.is_valid dj body db = (db, inr attrs)).
Proof.
  unfold LoginSerializer.is_valid.
  destruct (email_field_cases (dict_get "email" body))
    as [(ee & ->) | (raw & -> & Hraw & Hne & Hv)].
  - left. eexists. split; [reflexivity | repeat eexists].
  - cbn [errors_of value_of app].
    destruct (required_field_cases false None None [] (dict_get "password" body))
      as [(pe & ->) | (p & ->)].
    + left. eexists. split; [reflexivity | repeat eexists].
    + cbn [value_of]. unfold_view. unfold LoginSerializer.validate.
      destruct (_ || _); [left; eexists; split; [reflexivity | repeat eexists]|].
      destruct (authenticate dj (users db) (lower raw) p) as [user|];
        [|left; eexists; split; [reflexivity | repeat eexists]].
      destruct (negb (User.is_active user));
        [left; eexists; split; [reflexivity | repeat eexists]|].
      destruct (negb (User.is_verified user));
        [left; eexists; split; [reflexivity | repeat eexists]|].
      right. eexists. reflexivity.
Qed.

Lemma logout_serializer_cases body db :
  (exists e, LogoutSerializer.is_valid body db = (db, inl e) /\ is_validation_error e)
  \/ (exists token,
        LogoutSerializer.is_valid body db = (db, inr token)
        /\ field_text "refresh" body = Some token /\ plain_text token).
Proof.
  destruct (field_text "refresh" body) as [token|] eqn:Hb.
  - rewrite (refresh_field _ _ _ Hb).
    destruct (String.eqb token "") eqn:Hne;
      [left; eexists; split; [reflexivity | repeat eexists]|].
    destruct (has_nul token) eqn:Hnul;
      [left; eexists; split; [reflexivity | repeat eexists]|].
    apply String.eqb_neq in Hne. right. exists token. unfold plain_text. auto.
  - rewrite (refresh_field_missing _ _ Hb).
    left; eexists; split; [reflexivity | repeat eexists].
Qed.

Lemma detail_error_is_validation_error text : is_validation_error (detail_error text).
Proof. repeat eexists. Qed.

(** What a request leaves in the store and how it ends. *)
Lemma view_outcome r db :
  exists eff,
    effect_of dj r db eff
    /\ fst (view dj r db) = apply_effect dj eff db
    /\ match snd (view dj r db) with
       | inl e =>
           (is_validation_error e
            \/ (is_token_refresh r = true
                /\ e = TokenRefreshView.InvalidToken "Token is invalid or expired"))
           /\ (eff = NoChange
               \/ exists email env,
                    eff = Reissued email env /\ send_mail_raises env = true
                    /\ e = EmailDeliveryError)
       | inr response =>
           status response = HTTP_200_OK
           \/ (status response = HTTP_201_CREATED /\ exists attrs env, eff = Registered attrs env)
       end.
Proof.
  destruct r as [body|body env|body env|body env|body env|body env|body env|user]; simpl.
  - exists NoChange.
    destruct (check_serializer_cases body db) as [(e & Hv & He) | (raw & Hv & _)].
    + assert (H : CheckEmailView.post dj body db = (db, inl e))
        by (unfold CheckEmailView.post; unfold bind at 1; now rewrite Hv).
      rewrite H. simpl. auto.
    + assert (H : exists response,
                 CheckEmailView.post dj body db = (db, inr response)
                 /\ status response = HTTP_200_OK)
        by (unfold CheckEmailView.post; unfold bind at 1; rewrite Hv;
            eexists; split; reflexivity).
      destruct H as (response & -> & Hs). simpl. auto.
  - exists NoChange.
    destruct (login_serializer_cases body db) as [(e & Hv & He) | (attrs & Hv)].
    + assert (H : LoginView.post dj body env db = (db, inl e))
        by (unfold LoginView.post; unfold bind at 1; now rewrite Hv).
      rewrite H. simpl. auto.
    + assert (H : exists response,
                 LoginView.post dj body env db = (db, inr response)
                 /\ status response = HTTP_200_OK)
        by (unfold LoginView.post; unfold bind at 1; rewrite Hv;
            eexists; split; reflexivity).
      destruct H as (response & -> & Hs). simpl. auto.
  - destruct (send_serializer_cases body db) as [(e & Hv & He) | (raw & Hv & _)].
    + exists NoChange. rewrite (send_code_rejected dj _ _ _ _ Hv). simpl. auto.
    + exists (Reissued (lower raw) env). rewrite (send_code_accepted dj _ _ _ _ Hv). simpl.
      split; [eauto|]. split; trivial.
      destruct (send_mail_raises env) eqn:Hm; [|auto].
      split; [left; apply detail_error_is_validation_error|].
      right. eauto.
  - destruct (verify_serializer_cases body db) as [(e & Hv & He) | (raw & c & Hv & _)].
    + exists NoChange. rewrite (verify_code_rejected dj _ _ _ _ Hv). simpl. auto.
    + rewrite (verify_code_accepted dj _ _ _ _ _ Hv).
      destruct (latest (matches (lower raw) c) (codes db)) as [[pk v]|] eqn:Hl.
      * destruct (VerificationCode.is_valid (now env) v) eqn:Hval.
        -- exists (Consumed pk v). simpl. split; [|auto].
           exists body, env, (lower raw), c. auto.
        -- exists NoChange. simpl.
           split; trivial. split; trivial.
           split; [left; apply detail_error_is_validation_error | auto].
      * exists NoChange. simpl. split; trivial. split; trivial.
        split; [left; apply detail_error_is_validation_error | auto].
  - destruct (register_serializer_cases body db)
      as [(e & Hv & He) | (attrs & raw & Hv & _ & _ & _ & Hemail & _)].
    + exists NoChange. rewrite (register_rejected dj _ _ _ _ Hv). simpl. auto.
    + rewrite (register_accepted dj _ _ _ _ Hv). rewrite Hemail.
      destruct (first_used (lower raw) (codes db)) eqn:Hf.
      * destruct (user_exists (lower raw) (users db)) eqn:Hu.
        -- exists NoChange. simpl. split; trivial. split; trivial.
           split; [left; apply detail_error_is_validation_error | auto].
        -- exists (Registered attrs env). simpl. split.
           { exists body, raw. rewrite Hf. repeat split; trivial. discriminate. }
           split; trivial. right. eauto.
      * exists NoChange. simpl. split; trivial. split; trivial.
        split; [left; apply detail_error_is_validation_error | auto].
  - destruct (logout_serializer_cases body db) as [(e & Hv & He) | (token & Hv & Hb & Hne)].
    + exists NoChange.
      assert (H : LogoutView.post dj body env db = (db, inl e))
        by (unfold LogoutView.post; unfold bind at 1; now rewrite Hv).
      rewrite H. simpl. auto.
    + rewrite (logout_accepted dj body env db token Hb Hne).
      destruct (verify_cases dj (now env) token db)
        as [(text & ->) | (payload & -> & Hd & Hnot)].
      * exists NoChange. simpl. split; trivial. split; trivial.
        split; [left; apply detail_error_is_validation_error | auto].
      * exists (Blacklisted payload). simpl. auto.
  - destruct (logout_serializer_cases body db) as [(e & Hv & He) | (token & Hv & Hb & Hne)].
    + exists NoChange.
      assert (H : TokenRefreshView.post dj body env db = (db, inl e))
        by (unfold TokenRefreshView.post, TokenRefreshView.is_valid; unfold bind at 1;
            now rewrite Hv).
      rewrite H. simpl. auto.
    + rewrite (token_refresh_accepted dj body env db token Hb Hne).
      destruct (verify_cases dj (now env) token db)
        as [(text & ->) | (payload & -> & Hd & Hnot)].
      * exists NoChange. simpl. split; trivial. split; trivial. split; auto.
      * exists (Blacklisted payload). simpl. auto.
  - exists NoChange. simpl. auto.
Qed.

End Effects.

(** ** How requests end *)

Section Outcomes.
Variable dj : Django.

(** X3.  Every method of the views of views.py, once the framework has
    let the request through to it with a parsed body, ends in an answer: the
    handler never raises on an exception of these views and never answers
    500.  The status is 200, 201 or 400, and every 400 carries the machine
    code [validation_error]: none of the errors raised inside a view gets a
    code of its own. *)
Theorem views_answer_validation_errors (r : Request) (db : Db) :
  is_token_refresh r = false ->
  exists response,
    snd (respond dj r db) = Some response
    /\ (status response = HTTP_200_OK
        \/ status response = HTTP_201_CREATED
        \/ exists message, response = validation_error_response message).
Proof.
  intros Hr. unfold respond.
  destruct (view_outcome dj r db) as (eff & _ & _ & Hout).
  destruct (view dj r db) as [db' [e|response]]; simpl in *.
  - destruct Hout as ([He | (Habs & _)] & _); [|congruence].
    destruct (handler_validation_error e He) as (message & ->).
    exists (validation_error_response message). split; trivial.
    right. right. now exists message.
  - exists response. split; trivial. destruct Hout as [H | (H & _)]; auto.
Qed.

(** X4.  A request that fails leaves the store as it was, with one
    exception: a send-code request whose mail dispatch raises has already
    reissued the code. *)
Theorem failure_leaves_store (r : Request) (db : Db) (e : Exception) :
  snd (view dj r db) = inl e ->
  fst (view dj r db) = db
  \/ (exists body env email,
        r = send_code body env
        /\ send_mail_raises env = true
        /\ e = EmailDeliveryError
        /\ fst (view dj r db)
           = with_codes (invalidate_unused email (codes db) ++ [issued email env]) db).
Proof.
  intros He.
  destruct (view_outcome dj r db) as (eff & Heff & Hfst & Hout).
  rewrite He in Hout. destruct Hout as (_ & [-> | (email & env & -> & Hm & ->)]).
  - now left.
  - right. simpl in Heff. destruct Heff as (body & -> & _).
    exists body, env, email. auto.
Qed.

(** X5.  Each of the three tables of the store has its own writers: only
    register changes the users, only send-code and verify-code change the
    codes, only logout and the refresh exchange change the blacklist. *)
Theorem views_touch_only_their_tables (r : Request) (db : Db) :
  (is_register r = false -> users (fst (view dj r db)) = users db)
  /\ (touches_codes r = false -> codes (fst (view dj r db)) = codes db)
  /\ (touches_blacklist r = false -> blacklist (fst (view dj r db)) = blacklist db).
Proof.
  destruct (view_outcome dj r db) as (eff & Heff & -> & _).
  destruct eff as [|email env|pk v|attrs env|payload]; simpl in *; auto.
  - destruct Heff as (body & -> & _). simpl. repeat split; trivial; discriminate.
  - destruct Heff as (body & env & email & code & -> & _). simpl.
    repeat split; trivial; discriminate.
  - destruct Heff as (body & e & -> & _). simpl. repeat split; trivial; discriminate.
  - destruct Heff as (Ht & _). repeat split; trivial. congruence.
Qed.

End Outcomes.

Lemma views_answer_validation_errors_witness :
  exists response,
    snd (respond demo (logout [] (env_at 100 "" false)) empty_db) = Some response
    /\ (status response = HTTP_200_OK
        \/ status response = HTTP_201_CREATED
        \/ exists message, response = validation_error_response message).
Proof.
  apply (views_answer_validation_errors demo (logout [] (env_at 100 "" false)) empty_db).
  reflexivity.
Defined.

Lemma failure_leaves_store_witness :
  fst (view demo (verify_code [("email", "a@b.com"); ("code", "12345")]
                              (env_at 100 "" false)) empty_db) = empty_db
  \/ (exists body env email,
        verify_code [("email", "a@b.com"); ("code", "12345")] (env_at 100 "" false)
        = send_code body env
        /\ send_mail_raises env = true
        /\ NotFound = EmailDeliveryError
        /\ fst (view demo (verify_code [("email", "a@b.com"); ("code", "12345")]
                                       (env_at 100 "" false)) empty_db)
           = with_codes (invalidate_unused email (codes empty_db) ++ [issued email env])
                        empty_db).
Proof.
  apply (failure_leaves_store demo
           (verify_code [("email", "a@b.com"); ("code", "12345")] (env_at 100 "" false))
           empty_db NotFound).
  reflexivity.
Defined.

Lemma views_touch_only_their_tables_witness :
  users (fst (view demo (send_code [("email", "a@b.com")] (env_at 100 "12345" true))
                   empty_db))
  = users empty_db.
Proof.
  apply (proj1 (views_touch_only_their_tables demo
                  (send_code [("email", "a@b.com")] (env_at 100 "12345" true)) empty_db)).
  reflexivity.
Defined.

(** ** Invariants of the store *)

Section Invariants.
Variable dj : Django.

Lemma ascii_lower_idem c : ascii_lower (ascii_lower c) = ascii_lower c.
Proof. destruct c as [[] [] [] [] [] [] [] []]; reflexivity. Qed.

Lemma lower_idem s : lower (lower s) = lower s.
Proof. induction s as [|c s IH]; simpl; [reflexivity|]. now rewrite ascii_lower_idem, IH. Qed.

Lemma user_exists_false email us :
  user_exists email us = false <-> ~ In email (map User.email us).
Proof.
  unfold user_exists. induction us as [|u us IH]; simpl.
  - split; [intros _ [] | reflexivity].
  - rewrite orb_false_iff, IH, String.eqb_neq. split.
    + intros [Hne Hnot] [Heq | Hin]; auto.
    + intros H. split; intros H'; apply H; auto.
Qed.

Lemma NoDup_snoc {A : Type} (l : list A) (x : A) :
  NoDup l -> ~ In x l -> NoDup (l ++ [x]).
Proof.
  induction l as [|a l IH]; intros Hnd Hnot; simpl.
  - constructor; [intros H; inversion H | constructor].
  - inversion Hnd as [|a' l' Ha Hl]; subst.
    constructor.
    + rewrite list_elem_of_In, in_app_iff. intros [Hin | [<- | []]].
      * apply Ha. now apply list_elem_of_In.
      * apply Hnot. now left.
    + apply IH; trivial. intros Hin. apply Hnot. now right.
Qed.

Lemma view_keeps_emails_unique r db :
  emails_unique (users db) -> emails_unique (users (fst (view dj r db))).
Proof.
  intros [Hnd Hlow].
  destruct (view_outcome dj r db) as (eff & Heff & -> & _).
  destruct eff as [|email env|pk v|attrs env|payload]; simpl; try (split; assumption).
  simpl in Heff. destruct Heff as (body & e & _ & Hemail & _ & Hfree).
  split.
  - rewrite map_app. simpl. apply NoDup_snoc; trivial.
    rewrite Hemail. now apply user_exists_false.
  - intros u Hin. apply in_app_iff in Hin. destruct Hin as [Hin | [<- | []]]; auto.
    simpl. rewrite Hemail. apply lower_idem.
Qed.

(** X6.  The user table keeps one user per email and stores emails in lower
    case: the property holds after any sequence of requests on a store that
    has it, the empty store among them. *)
Theorem user_emails_unique (requests : list Request) (db : Db) :
  emails_unique (users db) -> emails_unique (users (serve dj db requests)).
Proof.
  revert db. induction requests as [|r requests IH]; intros db H; simpl; trivial.
  apply IH, view_keeps_emails_unique, H.
Qed.

Lemma used_row_persists r db v :
  In v (codes db) -> VerificationCode.is_used v = true ->
  exists v', In v' (codes (fst (view dj r db)))
             /\ VerificationCode.email v' = VerificationCode.email v
             /\ VerificationCode.is_used v' = true.
Proof.
  intros Hin Hu.
  apply list_elem_of_In, list_elem_of_lookup in Hin. destruct Hin as (pk & Hlk).
  destruct (view_keeps_rows dj r db pk v Hlk) as (v' & Hv' & Hor).
  exists v'. split.
  - apply list_elem_of_In. eapply list_elem_of_lookup_2. exact Hv'.
  - destruct Hor as [-> | ->]; auto.
Qed.

Lemma view_keeps_users_verified r db :
  users_have_used_code db -> users_have_used_code (fst (view dj r db)).
Proof.
  intros Hinv u Hin.
  assert (Hold : In u (users db) ->
                 exists v, In v (codes (fst (view dj r db)))
                           /\ VerificationCode.email v = User.email u
                           /\ VerificationCode.is_used v = true).
  { intros Hu. destruct (Hinv u Hu) as (v & Hv & He & Hused).
    destruct (used_row_persists r db v Hv Hused) as (v' & Hv' & He' & Hused').
    exists v'. repeat split; trivial. congruence. }
  destruct (view_outcome dj r db) as (eff & Heff & Hfst & _).
  destruct eff as [|email env|pk v|attrs env|payload];
    try (apply Hold; rewrite Hfst in Hin; exact Hin).
  rewrite Hfst in Hin |- *. simpl in *.
  apply in_app_iff in Hin. destruct Hin as [Hin | [<- | []]].
  - destruct (Hinv u Hin) as (v & Hv). eauto.
  - destruct Heff as (body & e & _ & Hemail & Hgate & _).
    destruct (first_used (lower e) (codes db)) eqn:Hf; [|congruence].
    unfold first_used in Hf.
    destruct (latest (used_for (lower e)) (codes db)) as [[pk v]|] eqn:Hl; [|discriminate].
    apply latest_Some in Hl. destruct Hl as (Hlk & Hm & _).
    exists v. unfold used_for in Hm. apply andb_prop in Hm. destruct Hm as [He Hu].
    apply String.eqb_eq in He. simpl. rewrite Hemail. repeat split; trivial.
    apply list_elem_of_In. eapply list_elem_of_lookup_2. exact Hlk.
Qed.

(** X7.  No user is stored without a used code stored for its email: the
    property holds after any sequence of requests on a store that has it, the
    empty store among them. *)
Theorem users_registered_behind_used_code (requests : list Request) (db : Db) :
  users_have_used_code db -> users_have_used_code (serve dj db requests).
Proof.
  revert db. induction requests as [|r requests IH]; intros db H; simpl; trivial.
  apply IH, view_keeps_users_verified, H.
Qed.

(** X8.  The code table is append-only: after any sequence of requests a row
    is still stored under its primary key with the same email, code, creation
    and expiry timestamps, and a row that was used is still used. *)
Theorem code_table_append_only (requests : list Request) (db : Db)
                               (pk : nat) (v : VerificationCode.t) :
  codes db !! pk = Some v ->
  exists v',
    codes (serve dj db requests) !! pk = Some v'
    /\ VerificationCode.email v' = VerificationCode.email v
    /\ VerificationCode.code v' = VerificationCode.code v
    /\ VerificationCode.created_at v' = VerificationCode.created_at v
    /\ VerificationCode.expires_at v' = VerificationCode.expires_at v
    /\ (VerificationCode.is_used v = true -> VerificationCode.is_used v' = true).
Proof.
  revert db v. induction requests as [|r requests IH]; intros db v Hlk; simpl.
  - exists v. auto 10.
  - destruct (view_keeps_rows dj r db pk v Hlk) as (w & Hw & Hor).
    destruct (IH _ _ Hw) as (v' & Hv' & He & Hc & Hcr & Hex & Hu).
    exists v'. split; trivial.
    destruct Hor as [-> | ->]; simpl in *; auto 10.
Qed.

End Invariants.

Lemma user_emails_unique_witness :
  map User.email (users (serve demo one_user_db second_signup)) = ["a@b.com"; "c@d.com"]
  /\ emails_unique (users (serve demo one_user_db second_signup)).
Proof.
  split; [reflexivity|].
  apply (user_emails_unique demo second_signup one_user_db). split.
  - constructor; [intros H; inversion H | constructor].
  - intros u [<- | []]. reflexivity.
Defined.

Lemma users_registered_behind_used_code_witness :
  map User.email (users (serve demo one_user_db second_signup)) = ["a@b.com"; "c@d.com"]
  /\ users_have_used_code (serve demo one_user_db second_signup).
Proof.
  split; [reflexivity|].
  apply (users_registered_behind_used_code demo second_signup one_user_db).
  intros u [<- | []]. eexists. split; [left; reflexivity | split; reflexivity].
Defined.

Lemma code_table_append_only_witness :
  exists v',
    codes (serve demo (mkDb [issued "a@b.com" (env_at 100 "11111" false)] [] ∅)
                 [send_code [("email", "A@b.com")] (env_at 160 "22222" false)]) !! 0%nat
    = Some v'
    /\ VerificationCode.email v' = "a@b.com"
    /\ VerificationCode.code v' = "11111"
    /\ VerificationCode.created_at v' = 100
    /\ VerificationCode.expires_at v' = 100 + minutes VERIFICATION_CODE_EXPIRY_MINUTES
    /\ (false = true -> VerificationCode.is_used v' = true).
Proof.
  apply (code_table_append_only demo
           [send_code [("email", "A@b.com")] (env_at 160 "22222" false)]
           (mkDb [issued "a@b.com" (env_at 100 "11111" false)] [] ∅)
           0 (issued "a@b.com" (env_at 100 "11111" false))).
  reflexivity.
Defined.

(** ** Issuing and consuming codes together *)

Section CodeLifecycle.
Variable dj : Django.

Lemma invalidate_unused_other email cs pk v :
  cs !! pk = Some v -> VerificationCode.email v <> email ->
  invalidate_unused email cs !! pk = Some v.
Proof.
  unfold invalidate_unused. revert pk.
  induction cs as [|x cs IH]; intros [|pk] H Hne; simpl in *; try discriminate; auto.
  injection H as ->. apply String.eqb_neq in Hne. now rewrite Hne.
Qed.

Lemma latest_from_invalidate email email' code cs : forall k best,
  email' <> email ->
  latest_from k (matches email' code) (invalidate_unused email cs) best
  = latest_from k (matches email' code) cs best.
Proof.
  unfold invalidate_unused.
  induction cs as [|v cs IH]; intros k best Hne; simpl; trivial.
  destruct (String.eqb (VerificationCode.email v) email
            && negb (VerificationCode.is_used v)) eqn:Hv.
  - apply andb_prop in Hv. destruct Hv as [He _]. apply String.eqb_eq in He.
    assert (Hm : forall w, VerificationCode.email w = email -> matches email' code w = false).
    { intros w Hw. unfold matches. rewrite Hw.
      assert (String.eqb email email' = false) by (apply String.eqb_neq; congruence).
      now rewrite H. }
    rewrite (Hm (VerificationCode.set_is_used true v)), (Hm v) by trivial.
    now apply IH.
  - now apply IH.
Qed.

Lemma latest_from_app p cs cs' : forall k best,
  latest_from k p (cs ++ cs') best
  = latest_from (k + length cs) p cs' (latest_from k p cs best).
Proof.
  induction cs as [|v cs IH]; intros k best; simpl.
  - now rewrite Nat.add_0_r.
  - rewrite IH. f_equal. lia.
Qed.

Lemma latest_after_reissue email email' code env cs :
  email' <> email ->
  latest (matches email' code) (invalidate_unused email cs ++ [issued email env])
  = latest (matches email' code) cs.
Proof.
  intros Hne. unfold latest. rewrite latest_from_app, latest_from_invalidate by trivial.
  simpl. unfold matches at 1. simpl.
  assert (String.eqb email email' = false) by (apply String.eqb_neq; congruence).
  now rewrite H.
Qed.

(** X9.  A reissue for one email leaves the codes of every other email as
    they are, and a verify-code request for another email ends as it would
    have ended without the reissue. *)
Theorem send_code_leaves_other_emails (body vbody : dict string) (env venv : Env) (db : Db)
                                      (E E' C : string) :
  SendVerificationCodeSerializer.is_valid dj body db = (db, inr E) ->
  snd (VerifyCodeSerializer.is_valid dj vbody db) = inr (VerifyCodeSerializer.mk E' C) ->
  E' <> E ->
  let db' := fst (view dj (send_code body env) db) in
  (forall pk v, codes db !! pk = Some v -> VerificationCode.email v <> E ->
                codes db' !! pk = Some v)
  /\ snd (view dj (verify_code vbody venv) db') = snd (view dj (verify_code vbody venv) db).
Proof.
  intros Hs Hv Hne db'. subst db'. simpl.
  rewrite (send_code_accepted dj _ _ _ _ Hs). simpl. split.
  - intros pk v Hlk Hem. rewrite lookup_app_l.
    + now apply invalidate_unused_other.
    + unfold invalidate_unused. rewrite length_map. now apply lookup_lt_Some in Hlk.
  - rewrite (verify_code_accepted dj vbody venv _ E' C)
      by (eapply verify_serializer_at; eauto).
    rewrite (verify_code_accepted dj vbody venv db E' C)
      by (eapply verify_serializer_at; eauto).
    simpl. rewrite latest_after_reissue by trivial.
    destruct (latest (matches E' C) (codes db)) as [[pk v]|]; trivial.
    now destruct (VerificationCode.is_valid (now venv) v).
Qed.

(** X10.  Round trip of a code: the code that send-code issued for [E]
    verifies in the store that send-code left at any clock before the expiry,
    which is the clock of the issue plus the minutes of the settings, and is
    answered as expired from that instant on; the expired request leaves the
    code unused. *)
Theorem issued_code_verifies_until_expiry (body vbody : dict string) (env venv : Env)
                                          (db : Db) (E : string) :
  SendVerificationCodeSerializer.is_valid dj body db = (db, inr E) ->
  snd (VerifyCodeSerializer.is_valid dj vbody db)
  = inr (VerifyCodeSerializer.mk E (generate_code env)) ->
  let db1 := fst (view dj (send_code body env) db) in
  (now venv < now env + minutes VERIFICATION_CODE_EXPIRY_MINUTES ->
   exists response,
     view dj (verify_code vbody venv) db1
     = (with_codes (invalidate_unused E (codes db)
                    ++ [VerificationCode.set_is_used true (issued E env)]) db1,
        inr response)
     /\ status response = HTTP_200_OK)
  /\ (now env + minutes VERIFICATION_CODE_EXPIRY_MINUTES <= now venv ->
      view dj (verify_code vbody venv) db1 = (db1, inl Expired)).
Proof.
  intros Hs Hv db1. subst db1. simpl.
  rewrite (send_code_accepted dj _ _ _ _ Hs). simpl.
  set (db1 := with_codes _ db).
  rewrite (verify_code_accepted dj vbody venv db1 E (generate_code env))
    by (eapply verify_serializer_at; eauto).
  assert (Hlen : length (invalidate_unused E (codes db)) = length (codes db))
    by (unfold invalidate_unused; apply length_map).
  assert (Hl : latest (matches E (generate_code env)) (codes db1)
               = Some (length (codes db), issued E env)).
  { apply latest_unique.
    - subst db1. simpl. now rewrite count_unused_reissued.
    - subst db1. simpl. rewrite lookup_app_r by lia. rewrite Hlen, Nat.sub_diag. reflexivity.
    - unfold matches. simpl. now rewrite !String.eqb_refl. }
  rewrite Hl.
  assert (Hval : VerificationCode.is_valid (now venv) (issued E env)
                 = (now venv <? now env + minutes VERIFICATION_CODE_EXPIRY_MINUTES))
    by reflexivity.
  rewrite Hval. split.
  - intros Hlt. apply Z.ltb_lt in Hlt. rewrite Hlt.
    assert (Hsave : save_code (length (codes db))
                      (VerificationCode.set_is_used true (issued E env)) (codes db1)
                    = (invalidate_unused E (codes db)
                       ++ [VerificationCode.set_is_used true (issued E env)])%list).
    { subst db1. unfold save_code. simpl.
      rewrite <- Hlen. rewrite insert_app_r_alt by lia.
      now rewrite Nat.sub_diag. }
    rewrite Hsave. eexists. split; reflexivity.
  - intros Hge. apply Z.ltb_ge in Hge. now rewrite Hge.
Qed.

End CodeLifecycle.

Lemma send_code_leaves_other_emails_witness :
  snd (view demo (verify_code [("email", "c@d.com"); ("code", "11111")] (env_at 200 "" false))
            (fst (view demo (send_code [("email", "a@b.com")] (env_at 160 "22222" false))
                       (mkDb [issued "c@d.com" (env_at 100 "11111" false)] [] ∅))))
  = snd (view demo (verify_code [("email", "c@d.com"); ("code", "11111")]
                                (env_at 200 "" false))
              (mkDb [issued "c@d.com" (env_at 100 "11111" false)] [] ∅)).
Proof.
  refine (proj2 (send_code_leaves_other_emails demo
                   [("email", "a@b.com")] [("email", "c@d.com"); ("code", "11111")]
                   (env_at 160 "22222" false) (env_at 200 "" false)
                   (mkDb [issued "c@d.com" (env_at 100 "11111" false)] [] ∅)
                   "a@b.com" "c@d.com" "11111" eq_refl eq_refl _)).
  discriminate.
Defined.

Lemma issued_code_verifies_until_expiry_witness :
  view demo (verify_code [("email", "A@b.com"); ("code", "12345")] (env_at 700 "" false))
       (fst (view demo (send_code [("email", "a@b.com")] (env_at 100 "12345" false))
                  empty_db))
  = (fst (view demo (send_code [("email", "a@b.com")] (env_at 100 "12345" false)) empty_db),
     inl Expired).
Proof.
  refine (proj2 (issued_code_verifies_until_expiry demo
                   [("email", "a@b.com")] [("email", "A@b.com"); ("code", "12345")]
                   (env_at 100 "12345" false) (env_at 700 "" false)
                   empty_db "a@b.com" eq_refl eq_refl) _).
  apply Z.leb_le. reflexivity.
Defined.

(** ** Registration and the other endpoints *)

Section Registration.
Variable dj : Django.

Lemma send_serializer_accepted_inv body db email :
  SendVerificationCodeSerializer.is_valid dj body db = (db, inr email) ->
  user_exists email (users db) = false.
Proof.
  intros Hv.
  destruct (send_serializer_cases dj body db) as [(e & He & _) | (raw & Hr & _ & _ & _ & Hu)].
  - congruence.
  - rewrite Hv in Hr. now injection Hr as ->.
Qed.

Lemma send_serializer_fields body db raw :
  field_text "email" body = Some raw -> plain_text raw -> EmailValidator dj raw = true ->
  SendVerificationCodeSerializer.is_valid dj body db
  = (db, if user_exists (lower raw) (users db) then inl email_taken_error
         else inr (lower raw)).
Proof.
  intros Hb Hp Hv.
  unfold SendVerificationCodeSerializer.is_valid,
    SendVerificationCodeSerializer.validate_email.
  rewrite (email_field_valid dj _ raw Hb Hp Hv). simpl.
  unfold_view. now destruct (user_exists (lower raw) (users db)).
Qed.

Lemma check_email_fields body db raw :
  field_text "email" body = Some raw -> plain_text raw -> EmailValidator dj raw = true ->
  CheckEmailView.post dj body db
  = (db, inr (mkResponse
                (JObj [ ("exists", JBool (user_exists (lower raw) (users db)));
                        ("message",
                         JStr (if user_exists (lower raw) (users db)
                               then "User exists. Please enter your password."
                               else "New user. Verification code will be sent.")) ])
                HTTP_200_OK)).
Proof.
  intros Hb Hp Hv.
  unfold CheckEmailView.post, CheckEmailSerializer.is_valid,
    CheckEmailSerializer.validate_email.
  rewrite (email_field_valid dj _ raw Hb Hp Hv). simpl.
  unfold_view. now rewrite lower_idem.
Qed.

(** X11.  Two send-code requests for an email open the gate of register
    without any verify-code request: the reissue stores the first code as
    used, and register asks for a used code only. *)
Theorem reissue_opens_register_gate (body1 body2 rbody : dict string)
                                    (env1 env2 renv : Env) (db : Db) (e p : string) :
  SendVerificationCodeSerializer.is_valid dj body1 db = (db, inr (lower e)) ->
  SendVerificationCodeSerializer.is_valid dj body2 db = (db, inr (lower e)) ->
  register_fields_ok dj rbody e p p ->
  let db2 := serve dj db [send_code body1 env1; send_code body2 env2] in
  exists response,
    view dj (register rbody renv) db2
    = (with_users (users db ++ [registered dj (register_attrs rbody e p p) renv db2]) db2,
       inr response)
    /\ status response = HTTP_201_CREATED.
Proof.
  intros Hv1 Hv2 Hok db2.
  pose proof (send_serializer_accepted_inv _ _ _ Hv1) as Hfree.
  set (db1 := fst (view dj (send_code body1 env1) db)).
  assert (Hdb1 : db1 = with_codes (invalidate_unused (lower e) (codes db)
                                   ++ [issued (lower e) env1]) db).
  { subst db1. simpl. now rewrite (send_code_accepted dj _ _ _ _ Hv1). }
  assert (Hv2' : SendVerificationCodeSerializer.is_valid dj body2 db1
                 = (db1, inr (lower e))).
  { pose proof (send_serializer_pure dj body2 db1) as Hf.
    pose proof (send_serializer_users dj body2 db db1) as Hs.
    rewrite Hv2 in Hs. simpl in Hs.
    destruct (SendVerificationCodeSerializer.is_valid dj body2 db1) as [d r].
    simpl in *. rewrite Hf, Hs; trivial. now rewrite Hdb1. }
  assert (Hdb2 : db2 = with_codes (invalidate_unused (lower e) (codes db)
                                   ++ [VerificationCode.set_is_used true (issued (lower e) env1);
                                       issued (lower e) env2]) db).
  { subst db2. unfold serve. cbn [fold_left]. fold db1.
    cbn [view]. rewrite (send_code_accepted dj _ _ _ _ Hv2'). cbn [fst].
    rewrite Hdb1. unfold with_codes. cbn [codes users blacklist].
    now rewrite send_code_twice. }
  pose proof (register_serializer_fields dj rbody db2 e p p Hok) as Hr.
  rewrite String.eqb_refl in Hr.
  cbn [view]. rewrite (register_accepted dj _ _ _ _ Hr).
  cbn [register_attrs RegisterSerializer.email].
  destruct (first_used (lower e) (codes db2)) eqn:Hf.
  - replace (users db2) with (users db) by now rewrite Hdb2.
    rewrite Hfree. eexists. split; reflexivity.
  - exfalso. rewrite first_used_None in Hf.
    specialize (Hf (VerificationCode.set_is_used true (issued (lower e) env1))).
    rewrite Hdb2 in Hf. simpl in Hf.
    unfold used_for in Hf. simpl in Hf. rewrite String.eqb_refl in Hf.
    assert (false = true); [|discriminate]. symmetry. apply Hf.
    apply in_app_iff. right. now left.
Qed.

(** X12.  check-email and send-code agree on a well-formed email, which is
    the text of the email field without the white space around it:
    check-email leaves the store as it is and reports [exists] for the
    lowercased email, and send-code is refused with "User with this email
    already exists." exactly when [exists] is true. *)
Theorem check_email_agrees_with_send_code (body : dict string) (env : Env) (db : Db)
                                          (raw : string) :
  field_text "email" body = Some raw -> plain_text raw -> EmailValidator dj raw = true ->
  view dj (check_email body) db
  = (db, inr (mkResponse
                (JObj [ ("exists", JBool (user_exists (lower raw) (users db)));
                        ("message",
                         JStr (if user_exists (lower raw) (users db)
                               then "User exists. Please enter your password."
                               else "New user. Verification code will be sent.")) ])
                HTTP_200_OK))
  /\ (user_exists (lower raw) (users db) = true
      <-> view dj (send_code body env) db = (db, inl email_taken_error)).
Proof.
  intros Hb Hne Hv. split; [now apply check_email_fields|].
  pose proof (send_serializer_fields body db raw Hb Hne Hv) as Hs. simpl.
  destruct (user_exists (lower raw) (users db)) eqn:Hu.
  - rewrite (send_code_rejected dj _ _ _ _ Hs). split; trivial.
  - rewrite (send_code_accepted dj _ _ _ _ Hs). split; [discriminate|].
    destruct (send_mail_raises env); intros H; discriminate.
Qed.

Lemma view_keeps_users r db u :
  In u (users db) -> In u (users (fst (view dj r db))).
Proof.
  intros Hin. destruct (view_outcome dj r db) as (eff & _ & -> & _).
  destruct eff; simpl; trivial. apply in_app_iff. now left.
Qed.

Lemma serve_keeps_users requests : forall db u,
  In u (users db) -> In u (users (serve dj db requests)).
Proof.
  induction requests as [|r requests IH]; intros db u Hin; simpl; trivial.
  apply IH, view_keeps_users, Hin.
Qed.

Lemma user_exists_true email us :
  user_exists email us = true <-> exists u, In u us /\ User.email u = email.
Proof.
  unfold user_exists. rewrite existsb_exists.
  split; intros (u & Hin & H); exists u; split; trivial;
    [now apply String.eqb_eq | now apply String.eqb_eq].
Qed.

Lemma serve_keeps_used_row requests db v :
  In v (codes db) -> VerificationCode.is_used v = true ->
  exists v', In v' (codes (serve dj db requests))
             /\ VerificationCode.email v' = VerificationCode.email v
             /\ VerificationCode.is_used v' = true.
Proof.
  intros Hin Hu.
  apply list_elem_of_In, list_elem_of_lookup in Hin. destruct Hin as (pk & Hlk).
  destruct (serve_keeps_used dj requests db pk v Hlk Hu) as (v' & Hv' & Hu' & He & _).
  exists v'. repeat split; trivial.
  apply list_elem_of_In. eapply list_elem_of_lookup_2. exact Hv'.
Qed.

(** X15.  An email that register has accepted stays taken: after any further
    requests the user is still stored, so every send-code request for the
    email, in any letter case, is refused with "User with this email already
    exists." and every register request for it that reaches the view is
    answered "User with this email already exists.".  The emails are the
    texts of the email fields without the white space around them. *)
Theorem registered_email_stays_taken (body : dict string) (env : Env) (db : Db)
                                     (response : Response Json) :
  snd (view dj (register body env) db) = inr response ->
  exists raw,
    field_text "email" body = Some raw
    /\ forall requests body' env' raw',
         field_text "email" body' = Some raw' -> lower raw' = lower raw ->
         plain_text raw' -> EmailValidator dj raw' = true ->
         let db' := serve dj (fst (view dj (register body env) db)) requests in
         user_exists (lower raw) (users db') = true
         /\ view dj (send_code body' env') db' = (db', inl email_taken_error)
         /\ (forall p, register_fields_ok dj body' raw' p p ->
                       view dj (register body' env') db' = (db', inl UserExists)).
Proof.
  intros Hok. simpl in Hok.
  destruct (register_serializer_cases dj body db)
    as [(e & Hv & _) | (attrs & raw & Hv & Hb & _ & _ & Hemail & _)].
  { rewrite (register_rejected dj _ _ _ _ Hv) in Hok. discriminate. }
  exists raw. split; trivial.
  intros requests body' env' raw' Hb' Hlow Hne' Hval' db'.
  rewrite (register_accepted dj _ _ _ _ Hv), Hemail in Hok.
  destruct (first_used (lower raw) (codes db)) as [v|] eqn:Hf; [|discriminate].
  destruct (user_exists (lower raw) (users db)) eqn:Hu; [discriminate|].
  assert (Hdb1 : fst (view dj (register body env) db)
                 = with_users (users db ++ [registered dj attrs env db]) db).
  { simpl. rewrite (register_accepted dj _ _ _ _ Hv), Hemail, Hf, Hu. reflexivity. }
  assert (Htaken : user_exists (lower raw) (users db') = true).
  { apply user_exists_true. exists (registered dj attrs env db). split; [|exact Hemail].
    subst db'. apply serve_keeps_users. rewrite Hdb1. simpl.
    apply in_app_iff. right. now left. }
  split; trivial. split.
  - pose proof (send_serializer_fields body' db' raw' Hb' Hne' Hval') as Hs.
    rewrite Hlow, Htaken in Hs. simpl. now rewrite (send_code_rejected dj _ _ _ _ Hs).
  - intros p Hfields.
    pose proof (register_serializer_fields dj body' db' raw' p p Hfields) as Hr.
    rewrite String.eqb_refl in Hr. simpl.
    rewrite (register_accepted dj _ _ _ _ Hr). simpl. rewrite Hlow, Htaken.
    destruct (first_used (lower raw) (codes db')) eqn:Hf'; trivial.
    exfalso. rewrite first_used_None in Hf'.
    unfold first_used in Hf.
    destruct (latest (used_for (lower raw)) (codes db)) as [[pk w]|] eqn:Hl; [|discriminate].
    apply latest_Some in Hl. destruct Hl as (Hlk & Hm & _).
    unfold used_for in Hm. apply andb_prop in Hm. destruct Hm as [He Hused].
    apply String.eqb_eq in He.
    assert (Hin : In w (codes (fst (view dj (register body env) db)))).
    { rewrite Hdb1. simpl. apply list_elem_of_In. eapply list_elem_of_lookup_2. exact Hlk. }
    destruct (serve_keeps_used_row requests _ w Hin Hused) as (w' & Hin' & He' & Hu').
    specialize (Hf' w' Hin'). unfold used_for in Hf'.
    rewrite He', He, String.eqb_refl, Hu' in Hf'. discriminate.
Qed.

Lemma validate_password_accepts password :
  validate_password dj password = [] ->
  (8 <= String.length password)%nat
  /\ is_common_password dj password = false
  /\ isdigit password = false.
Proof.
  unfold validate_password, MinimumLengthValidator_min_length.
  destruct (String.length password <? 8)%nat eqn:Hlen; [discriminate|].
  destruct (is_common_password dj password); [discriminate|].
  destruct (isdigit password); [discriminate|].
  intros _. apply Nat.ltb_ge in Hlen. auto.
Qed.

(** X16.  A register request whose password is shorter than 8 characters,
    entirely numeric or in the list of common passwords is refused with a
    validation error, whatever the rest of the request and whatever the
    store, and the store is left as it was.  The password is judged without
    the white space around it, so padding does not make a short password long
    enough. *)
Theorem weak_password_rejected (body : dict string) (env : Env) (db : Db) (p : string) :
  field_text "password" body = Some p ->
  (String.length p < 8)%nat \/ isdigit p = true \/ is_common_password dj p = true ->
  exists e,
    view dj (register body env) db = (db, inl e)
    /\ is_validation_error e
    /\ exists message,
         snd (respond dj (register body env) db) = Some (validation_error_response message).
Proof.
  intros Hb Hweak.
  destruct (register_serializer_cases dj body db)
    as [(e & Hv & He) | (attrs & raw & Hv & _ & _ & _ & _ & Hp & Hacc & _)].
  - exists e. simpl. rewrite (register_rejected dj _ _ _ _ Hv).
    split; trivial. split; trivial.
    unfold respond. simpl. rewrite (register_rejected dj _ _ _ _ Hv).
    now apply handler_validation_error.
  - exfalso. rewrite Hb in Hp. injection Hp as Hp. rewrite <- Hp in Hacc.
    destruct (validate_password_accepts p Hacc) as (Hlen & Hc & Hd).
    destruct Hweak as [H | [H | H]]; [lia | congruence | congruence].
Qed.

End Registration.

Lemma reissue_opens_register_gate_witness :
  exists response,
    view demo (register [ ("email", "a@b.com"); ("password", "correct-horse1");
                          ("password_confirm", "correct-horse1") ]
                        (env_at 300 "" false))
         (serve demo empty_db
                [ send_code [("email", "a@b.com")] (env_at 100 "11111" false);
                  send_code [("email", "a@b.com")] (env_at 160 "22222" false) ])
    = (with_users
         (users empty_db
          ++ [registered demo
                (register_attrs [ ("email", "a@b.com"); ("password", "correct-horse1");
                                  ("password_confirm", "correct-horse1") ]
                                "a@b.com" "correct-horse1" "correct-horse1")
                (env_at 300 "" false)
                (serve demo empty_db
                   [ send_code [("email", "a@b.com")] (env_at 100 "11111" false);
                     send_code [("email", "a@b.com")] (env_at 160 "22222" false) ])])
         (serve demo empty_db
            [ send_code [("email", "a@b.com")] (env_at 100 "11111" false);
              send_code [("email", "a@b.com")] (env_at 160 "22222" false) ]),
       inr response)
    /\ status response = HTTP_201_CREATED.
Proof.
  apply (reissue_opens_register_gate demo
           [("email", "a@b.com")] [("email", "a@b.com")]
           [ ("email", "a@b.com"); ("password", "correct-horse1");
             ("password_confirm", "correct-horse1") ]
           (env_at 100 "11111" false) (env_at 160 "22222" false) (env_at 300 "" false)
           empty_db "a@b.com" "correct-horse1" eq_refl eq_refl).
  unfold register_fields_ok. simpl. repeat split; trivial; discriminate.
Defined.

Lemma check_email_agrees_with_send_code_witness :
  view demo (check_email [("email", "A@b.com")])
       (mkDb [] [User.mk 1 "a@b.com" "correct-horse1" "" "" true true 0] ∅)
  = (mkDb [] [User.mk 1 "a@b.com" "correct-horse1" "" "" true true 0] ∅,
     inr (mkResponse
            (JObj [ ("exists", JBool true);
                    ("message", JStr "User exists. Please enter your password.") ])
            HTTP_200_OK)).
Proof.
  refine (proj1 (check_email_agrees_with_send_code demo [("email", "A@b.com")]
                   (env_at 100 "" false)
                   (mkDb [] [User.mk 1 "a@b.com" "correct-horse1" "" "" true true 0] ∅)
                   "A@b.com" eq_refl _ eq_refl)).
  split; [discriminate | reflexivity].
Defined.

Lemma registered_email_stays_taken_witness :
  exists raw,
    field_text "email" [ ("email", "a@b.com"); ("password", "correct-horse1");
                         ("password_confirm", "correct-horse1") ] = Some raw.
Proof.
  destruct (registered_email_stays_taken demo
              [ ("email", "a@b.com"); ("password", "correct-horse1");
                ("password_confirm", "correct-horse1") ]
              (env_at 300 "" false)
              (mkDb [VerificationCode.mk "a@b.com" "11111" 100 700 true] [] ∅)
              (mkResponse
                 (JObj [ ("access", JStr "access-token");
                         ("refresh", JStr "refresh-token");
                         ("user", UserSerializer.data
                                    (User.mk 1 "a@b.com" "correct-horse1" "" "" true true 300));
                         ("message", JStr "Registration successful.") ])
                 HTTP_201_CREATED)
              eq_refl) as (raw & Hraw & _).
  exists raw. exact Hraw.
Defined.

Lemma weak_password_rejected_witness :
  exists e,
    view demo (register [ ("email", "a@b.com"); ("password", "xq7#kz9  ");
                          ("password_confirm", "xq7#kz9  ") ]
                        (env_at 300 "" false)) empty_db
    = (empty_db, inl e)
    /\ is_validation_error e
    /\ exists message,
         snd (respond demo (register [ ("email", "a@b.com"); ("password", "xq7#kz9  ");
                                       ("password_confirm", "xq7#kz9  ") ]
                                     (env_at 300 "" false)) empty_db)
         = Some (validation_error_response message).
Proof.
  apply (weak_password_rejected demo
           [ ("email", "a@b.com"); ("password", "xq7#kz9  ");
             ("password_confirm", "xq7#kz9  ") ]
           (env_at 300 "" false) empty_db "xq7#kz9" eq_refl).
  left. simpl. lia.
Defined.

(** ** Emails and required fields *)

Section Emails.
Variable dj : Django.

Lemma lower_eq_empty s : lower s = "" -> s = "".
Proof. destruct s; [reflexivity | discriminate]. Qed.

Lemma ascii_lower_nul c : Ascii.eqb zero (ascii_lower c) = Ascii.eqb zero c.
Proof. destruct c as [[] [] [] [] [] [] [] []]; reflexivity. Qed.

Lemma has_nul_lower s : has_nul (lower s) = has_nul s.
Proof.
  unfold has_nul. induction s as [|c s IH]; [reflexivity|].
  cbn [lower list_ascii_of_string existsb]. now rewrite ascii_lower_nul, IH.
Qed.

(** Two emails that are the same but for letter case and the white space
    around them are both refused by the field for the same reason, or both
    accepted. *)
Lemma email_field_same e1 e2 :
  lower (strip e1) = lower (strip e2) ->
  EmailValidator dj (strip e1) = true -> EmailValidator dj (strip e2) = true ->
  EmailField dj (Some e1) = EmailField dj (Some e2)
  \/ (EmailField dj (Some e1) = Valid (strip e1)
      /\ EmailField dj (Some e2) = Valid (strip e2)).
Proof.
  intros Hlow Hv1 Hv2.
  assert (Hnul : has_nul (strip e1) = has_nul (strip e2))
    by (rewrite <- (has_nul_lower (strip e1)), Hlow; apply has_nul_lower).
  unfold EmailField, text_field.
  destruct (String.eqb (strip e1) "") eqn:He1.
  - apply String.eqb_eq in He1. rewrite He1 in Hlow. symmetry in Hlow.
    apply lower_eq_empty in Hlow. rewrite Hlow. now left.
  - destruct (String.eqb (strip e2) "") eqn:He2.
    + apply String.eqb_eq in He2. rewrite He2 in Hlow.
      apply lower_eq_empty in Hlow. rewrite Hlow in He1. discriminate.
    + unfold run_validators, ProhibitNullCharactersValidator. simpl.
      rewrite Hv1, Hv2, <- Hnul. destruct (has_nul (strip e1)); [left | right]; auto.
Qed.

(** X13.  The endpoints that take an email read it without regard to letter
    case and to the white space around it: two requests whose well-formed
    emails differ in these only end in the same way and leave the same
    store. *)
Theorem email_case_insensitive (e1 e2 : string) (rest : dict string) (db : Db) :
  lower (strip e1) = lower (strip e2) ->
  EmailValidator dj (strip e1) = true -> EmailValidator dj (strip e2) = true ->
  view dj (check_email (with_email e1 rest)) db
  = view dj (check_email (with_email e2 rest)) db
  /\ forall env,
       view dj (login (with_email e1 rest) env) db
       = view dj (login (with_email e2 rest) env) db
       /\ view dj (send_code (with_email e1 rest) env) db
          = view dj (send_code (with_email e2 rest) env) db
       /\ view dj (verify_code (with_email e1 rest) env) db
          = view dj (verify_code (with_email e2 rest) env) db
       /\ view dj (register (with_email e1 rest) env) db
          = view dj (register (with_email e2 rest) env) db.
Proof.
  intros Hlow Hv1 Hv2.
  destruct (email_field_same e1 e2 Hlow Hv1 Hv2) as [Heq | [Hf1 Hf2]].
  { split; [|intros env; split; [|split; [|split]]]; simpl;
      unfold CheckEmailView.post, CheckEmailSerializer.is_valid,
        LoginView.post, LoginSerializer.is_valid,
        SendVerificationCodeView.post, SendVerificationCodeSerializer.is_valid,
        VerifyCodeView.post, VerifyCodeSerializer.is_valid,
        RegisterView.post, RegisterSerializer.is_valid, with_email;
      simpl dict_get; now rewrite Heq. }
  split; [|intros env; split; [|split; [|split]]]; simpl.
  - unfold CheckEmailView.post, CheckEmailSerializer.is_valid,
      CheckEmailSerializer.validate_email, with_email.
    cbn [dict_get]. rewrite !String.eqb_refl, Hf1, Hf2. simpl. now rewrite Hlow.
  - unfold LoginView.post, LoginSerializer.is_valid, LoginSerializer.validate, with_email.
    simpl dict_get. rewrite Hf1, Hf2. cbn [value_of errors_of app].
    destruct (value_of _); trivial. unfold_view. rewrite Hlow.
    destruct (_ || _); trivial.
    destruct (authenticate dj (users db) (lower (strip e2)) s) as [user|]; trivial.
    destruct (negb (User.is_active user)); trivial.
    destruct (negb (User.is_verified user)); trivial.
  - unfold SendVerificationCodeView.post, SendVerificationCodeSerializer.is_valid,
      SendVerificationCodeSerializer.validate_email, with_email.
    simpl dict_get. rewrite Hf1, Hf2. cbn [then_validate]. now rewrite Hlow.
  - unfold VerifyCodeView.post, VerifyCodeSerializer.is_valid,
      VerifyCodeSerializer.validate_email, with_email.
    simpl dict_get. rewrite Hf1, Hf2. cbn [then_validate]. now rewrite Hlow.
  - unfold RegisterView.post, RegisterSerializer.is_valid,
      RegisterSerializer.validate_email, with_email.
    simpl dict_get. rewrite Hf1, Hf2. cbn [then_validate]. now rewrite Hlow.
Qed.

(** X14.  Two answers of the views are never given, because the serializer
    has refused a missing or blank field before the view's own test runs:
    logout never answers "Refresh token is required." and login never answers
    "Email and password are required.". *)
Theorem required_field_answers_unreachable (body : dict string) (env : Env) (db : Db) :
  snd (view dj (logout body env) db) <> inl (detail_error "Refresh token is required.")
  /\ snd (view dj (login body env) db)
     <> inl (ValidationError (EDict [("detail", EList ["Email and password are required."])])).
Proof.
  split; simpl.
  - destruct (refresh_token_cases body) as [(token & Hb & Hp) | Hbad].
    + rewrite (logout_accepted dj _ _ _ _ Hb Hp).
      destruct (RefreshToken.verify dj (now env) token db) as [db' [e|payload]];
        discriminate.
    + destruct (logout_refused dj body env db Hbad) as (errors & -> & _). discriminate.
  - unfold LoginView.post, LoginSerializer.is_valid, LoginSerializer.validate.
    destruct (email_field_cases dj (dict_get "email" body))
      as [(ee & ->) | (raw & -> & Hraw & [Hne Hnul] & Hv)]; [discriminate|].
    cbn [errors_of value_of app].
    unfold CharField, text_field.
    destruct (dict_get "password" body) as [p|]; [|discriminate].
    destruct (String.eqb (strip p) "") eqn:Hp; [discriminate|].
    unfold run_validators, ProhibitNullCharactersValidator. simpl.
    destruct (has_nul (strip p)); [discriminate|]. simpl. unfold_view.
    rewrite (lower_empty _ Hne), Hp. simpl.
    destruct (authenticate dj (users db) (lower raw) (strip p)) as [user|]; [|discriminate].
    destruct (negb (User.is_active user)); [discriminate|].
    destruct (negb (User.is_verified user)); discriminate.
Qed.

End Emails.

Lemma email_case_insensitive_witness :
  view demo (check_email (with_email " A@B.com " [])) one_user_db
  = view demo (check_email (with_email "a@b.com" [])) one_user_db.
Proof.
  exact (proj1 (email_case_insensitive demo " A@B.com " "a@b.com" [] one_user_db
                  eq_refl eq_refl eq_refl)).
Defined.

(** ** What a successful verification has checked *)

Section VerifySuccess.
Variable dj : Django.

(** X17.  verify-code succeeds only on a stored row of the email and the
    code of the request, that was unused and whose expiry is still ahead of
    the clock.  The email of the row is the lowercased text of the email
    field and its code the text of the code field, a 5-character text, both
    taken without the white space around them.  The answer is then 200 with
    [verified] true, and the store differs in that row only. *)
Theorem verify_success_needs_valid_code (body : dict string) (env : Env) (db : Db)
                                        (response : Response Json) :
  snd (view dj (verify_code body env) db) = inr response ->
  exists raw c pk v,
    field_text "email" body = Some raw
    /\ field_text "code" body = Some c
    /\ String.length c = 5%nat
    /\ codes db !! pk = Some v
    /\ VerificationCode.email v = lower raw
    /\ VerificationCode.code v = c
    /\ VerificationCode.is_used v = false
    /\ now env < VerificationCode.expires_at v
    /\ response
       = mkResponse
           (JObj [ ("verified", JBool true);
                   ("message", JStr "Code verified successfully. Please set your password.") ])
           HTTP_200_OK
    /\ fst (view dj (verify_code body env) db)
       = with_codes (<[pk := VerificationCode.set_is_used true v]> (codes db)) db.
Proof.
  intros Hok. simpl in *.
  destruct (verify_serializer_cases dj body db)
    as [(e & Hv & _) | (raw & c & Hv & Hb & _ & _ & Hc & Hlen & _)].
  { rewrite (verify_code_rejected dj _ _ _ _ Hv) in Hok. discriminate. }
  rewrite (verify_code_accepted dj _ _ _ _ _ Hv) in Hok |- *.
  destruct (latest (matches (lower raw) c) (codes db)) as [[pk v]|] eqn:Hl; [|discriminate].
  destruct (VerificationCode.is_valid (now env) v) eqn:Hval; [|discriminate].
  apply latest_Some in Hl. destruct Hl as (Hlk & Hm & _).
  unfold matches in Hm. apply andb_prop in Hm. destruct Hm as [Hm Hu].
  apply andb_prop in Hm. destruct Hm as [He Hcd].
  apply String.eqb_eq in He, Hcd. apply negb_true_iff in Hu.
  unfold VerificationCode.is_valid in Hval. apply andb_prop in Hval.
  destruct Hval as [_ Hexp]. apply Z.ltb_lt in Hexp.
  simpl in Hok. injection Hok as <-.
  exists raw, c, pk, v. repeat split; trivial.
Qed.

End VerifySuccess.

Lemma verify_success_needs_valid_code_witness :
  exists raw c pk v,
    field_text "email" [("email", "A@b.com "); ("code", " 12345")] = Some raw
    /\ field_text "code" [("email", "A@b.com "); ("code", " 12345")] = Some c
    /\ String.length c = 5%nat
    /\ codes (mkDb [issued "a@b.com" (env_at 100 "12345" false)] [] ∅) !! pk = Some v
    /\ VerificationCode.email v = lower raw
    /\ VerificationCode.code v = c
    /\ VerificationCode.is_used v = false
    /\ now (env_at 200 "" false) < VerificationCode.expires_at v
    /\ mkResponse
         (JObj [ ("verified", JBool true);
                 ("message", JStr "Code verified successfully. Please set your password.") ])
         HTTP_200_OK
       = mkResponse
           (JObj [ ("verified", JBool true);
                   ("message", JStr "Code verified successfully. Please set your password.") ])
           HTTP_200_OK
    /\ fst (view demo (verify_code [("email", "A@b.com "); ("code", " 12345")]
                                   (env_at 200 "" false))
                 (mkDb [issued "a@b.com" (env_at 100 "12345" false)] [] ∅))
       = with_codes (<[pk := VerificationCode.set_is_used true v]>
                       (codes (mkDb [issued "a@b.com" (env_at 100 "12345" false)] [] ∅)))
                    (mkDb [issued "a@b.com" (env_at 100 "12345" false)] [] ∅).
Proof.
  apply (verify_success_needs_valid_code demo
           [("email", "A@b.com "); ("code", " 12345")] (env_at 200 "" false)
           (mkDb [issued "a@b.com" (env_at 100 "12345" false)] [] ∅)).
  reflexivity.
Defined.
